(** * AI_Agent: a shallow embedding of [ai_agent.py]

    The program is a Streamlit script: it loads a table (an uploaded CSV file
    or a Google Sheet), lets the user pick a column and a prompt template,
    runs a LangChain agent once per distinct value of the column and shows,
    offers for download and optionally writes back the results.

    The embedding follows the script function by function.  Python code that
    can raise runs in a small state-and-exception monad [M]; the state holds
    the outside world (everything the remote services and the clock decide)
    and the trace of what the script showed and requested.  The third-party
    calls ([agent.run], [requests.get], the Groq client, the Google Sheets
    client, the pandas constructors) are fields of a record [externals]: every
    theorem holds for all of their behaviours. *)

From Stdlib Require Import String Ascii List ZArith Lia Bool DecimalString.
Import ListNotations.
Open Scope string_scope.

Set Implicit Arguments.
Set Warnings "-register-all".

(** ** Python values and exceptions *)

(** An instance of Python's [Exception]: its class and [str(e)].  Every
    handler of the script is [except Exception]. *)
Record exn : Type := mk_exn { exn_class : string; exn_msg : string }.

Definition TypeError (msg : string) : exn := mk_exn "TypeError" msg.
Definition IndexError (msg : string) : exn := mk_exn "IndexError" msg.
Definition KeyError (msg : string) : exn := mk_exn "KeyError" msg.
Definition AttributeError (msg : string) : exn := mk_exn "AttributeError" msg.

(** The result of running Python code: a value or a raised exception. *)
Inductive outcome (A : Type) : Type :=
| Ret (a : A)
| Raise (e : exn).
Arguments Ret {A} a.
Arguments Raise {A} e.

(** A cell of a table, as pandas hands it to the script: a [str], a
    [numpy.int64] of a numeric column, the float [nan] pandas puts for an
    empty CSV cell, or the [None] it puts for a cell a sheet row lacks. *)
Inductive cell : Type :=
| CStr (s : string)
| CInt (z : Z)
| CMissing
| CNone.

Definition cell_eqb (a b : cell) : bool :=
  match a, b with
  | CStr s, CStr t => String.eqb s t
  | CInt x, CInt y => Z.eqb x y
  | CMissing, CMissing => true
  | CNone, CNone => true
  | _, _ => false
  end.

Definition is_str (c : cell) : bool :=
  match c with CStr _ => true | _ => false end.

(** [str(c)], as an f-string renders a cell. *)
Definition py_str (c : cell) : string :=
  match c with
  | CStr s => s
  | CInt z => NilZero.string_of_int (Z.to_int z)
  | CMissing => "nan"
  | CNone => "None"
  end.

(** The name of the Python type of a cell, as it appears in a [TypeError]. *)
Definition type_name (c : cell) : string :=
  match c with
  | CStr _ => "str"
  | CInt _ => "numpy.int64"
  | CMissing => "float"
  | CNone => "None"
  end.

(** A JSON document, as [response.json()] decodes it. *)
Inductive json : Type :=
| JNull
| JBool (b : bool)
| JNum (z : Z)
| JStr (s : string)
| JArr (items : list json)
| JObj (fields : list (string * json)).

Definition is_list (j : json) : bool :=
  match j with JArr _ => true | _ => false end.

(** ** Python built-ins used by the script *)

(** [s.split(sep)] for a one-character separator: [n] separators give
    [n + 1] pieces, the empty string gives one empty piece. *)
Fixpoint split (sep : ascii) (s : string) : list string :=
  match s with
  | EmptyString => [EmptyString]
  | String c s' =>
      if Ascii.eqb c sep then EmptyString :: split sep s'
      else match split sep s' with
           | piece :: pieces => String c piece :: pieces
           | [] => [String c EmptyString]
           end
  end.

(** [l[i]] on a list. *)
Definition index {A} (l : list A) (i : nat) : outcome A :=
  match nth_error l i with
  | Some x => Ret x
  | None => Raise (IndexError "list index out of range")
  end.

(** [l[1:]]. *)
Definition slice_from_1 {A} (l : list A) : list A := tl l.

(** The scan of [s.replace(old, new)] for a non-empty [old]: left to right,
    each occurrence found is replaced and the scan resumes after it ([skip]
    counts the characters of the occurrence still to pass over). *)
Fixpoint replace_scan (old new : string) (skip : nat) (s : string) : string :=
  match s with
  | EmptyString => EmptyString
  | String c s' =>
      match skip with
      | S k => replace_scan old new k s'
      | O =>
          if prefix old s
          then new ++ replace_scan old new (String.length old - 1) s'
          else String c (replace_scan old new 0 s')
      end
  end.

(** With an empty [old], Python puts [new] before every character and at
    the end. *)
Fixpoint replace_empty (new s : string) : string :=
  match s with
  | EmptyString => new
  | String c s' => new ++ String c (replace_empty new s')
  end.

Definition str_replace (s old new : string) : string :=
  match old with
  | EmptyString => replace_empty new s
  | String _ _ => replace_scan old new 0 s
  end.

(** [s.replace(old, new)] where [new] is a cell: [str.replace] checks the
    type of its arguments before it looks at [s]. *)
Definition replace (s old : string) (new : cell) : outcome string :=
  match new with
  | CStr n => Ret (str_replace s old n)
  | _ => Raise (TypeError ("replace() argument 2 must be str, not " ++ type_name new))
  end.

(** [old] occurs in [s]. *)
Definition occurs (old s : string) : Prop :=
  exists pre post, s = pre ++ old ++ post.

(** [old in s], by trying every position. *)
Fixpoint contains (old s : string) : bool :=
  match s with
  | EmptyString => prefix old s
  | String _ s' => prefix old s || contains old s'
  end.

(** ** pandas *)

(** A data frame, column by column: the labels in order (a sheet may repeat
    a label) and the cells of each column. *)
Definition dataframe : Type := list (string * list cell).

(** [df[label]] followed by [.unique()]'s receiver: a label that is absent
    raises [KeyError]; a repeated label selects a frame, which has no
    [unique]. *)
Definition getitem (df : dataframe) (label : string) : outcome (list cell) :=
  match filter (fun col => String.eqb (fst col) label) df with
  | [] => Raise (KeyError label)
  | [col] => Ret (snd col)
  | _ :: _ :: _ =>
      Raise (AttributeError "'DataFrame' object has no attribute 'unique'")
  end.

(** [df.head()]: the first five rows. *)
Definition df_head (df : dataframe) : dataframe :=
  map (fun col => (fst col, firstn 5 (snd col))) df.

Definition mem (c : cell) (l : list cell) : bool := existsb (cell_eqb c) l.

(** [Series.unique()]: a hash-table pass that keeps a value the first time
    it is met. *)
Fixpoint unique_from (seen : list cell) (l : list cell) : list cell :=
  match l with
  | [] => []
  | c :: l' =>
      if mem c seen then unique_from seen l'
      else c :: unique_from (c :: seen) l'
  end.

Definition unique (l : list cell) : list cell := unique_from [] l.

(** The strings of a list of cells. *)
Fixpoint strings_of (l : list cell) : list string :=
  match l with
  | [] => []
  | CStr s :: l' => s :: strings_of l'
  | _ :: l' => strings_of l'
  end.

(** ** The outside world and the trace of a run *)

(** What [requests.get] returns: [json_body] is [response.json()], which
    raises on a body that is not JSON. *)
Record response : Type := mk_response {
  status_code : Z;
  reason : string;
  text : string;
  json_body : outcome json
}.

(** A chat completion: the [message.content] of each of its choices. *)
Record completion : Type := mk_completion { choices : list string }.

(** The answer of [spreadsheets().values().get(...)]: a dict whose key
    ["values"] is absent for an empty range. *)
Record sheet_data : Type := mk_sheet_data { values : option (list (list string)) }.

(** An extraction record, a dict with the keys ["Entity"] and
    ["Extracted Data"]. *)
Record extraction : Type := mk_extraction {
  Entity : cell;
  Extracted_Data : string
}.

(** A request to a third party. *)
Inductive call : Type :=
| AgentRun (prompt : string)
| RequestsGet (url query : string)
| GroqCreate (system user model : string)
| SheetsService
| SheetsGet (spreadsheet_id range_name : string)
| SheetsUpdate (spreadsheet_id range_name : string) (data : list (list cell))
| InitializeAgent.

(** What a run leaves behind, in order: what Streamlit was asked to show and
    the requests made. *)
Inductive event : Type :=
| UiError (msg : string)
| UiWarning (msg : string)
| UiSuccess (msg : string)
| UiWrite (msg : string)
| UiMarkdown (body : string)
| UiHead (df : dataframe)
| UiProgressBar
| UiProgress (done total : nat)
| UiTable (rows : list extraction)
| UiDownload (label : string) (rows : list extraction) (file_name mime : string)
| UiSpinner (msg : string)
| UiDataframe (rows : list extraction)
| Called (c : call).

(** The third-party code, as functions of the state of the world [W].

    [agent_run] is [agent.run]: what the agent does inside one call, the
    calls of its tools [search_web] and [query_groq] included, happens in
    the world; the trace of a run holds the calls the script itself makes.
    [render_frame] is the rendering of a frame by [st.write], which raises
    for a frame Streamlit cannot show, such as one with a repeated label. *)
Record externals (W : Type) : Type := mk_externals {
  agent_run : string -> W -> outcome string * W;
  requests_get : string -> string -> W -> outcome response * W;
  chat_completions_create :
    string -> string -> string -> W -> outcome completion * W;
  build_service : W -> outcome unit * W;
  values_get : string -> string -> W -> outcome sheet_data * W;
  values_update :
    string -> string -> list (list cell) -> W -> outcome json * W;
  initialize_agent : W -> outcome unit * W;
  pd_DataFrame : list (list string) -> list string -> outcome dataframe;
  pd_read_csv : string -> outcome dataframe;
  render_frame : dataframe -> outcome unit
}.

Record state (W : Type) : Type := mk_state {
  world : W;
  trace : list event
}.

(** ** The monad of the script *)

Definition M (W A : Type) : Type := state W -> outcome A * state W.

Definition ret {W A} (a : A) : M W A := fun st => (Ret a, st).

Definition raise {W A} (e : exn) : M W A := fun st => (Raise e, st).

Definition bind {W A B} (m : M W A) (k : A -> M W B) : M W B :=
  fun st =>
    match m st with
    | (Ret a, st') => k a st'
    | (Raise e, st') => (Raise e, st')
    end.

(** [try: m  except Exception as e: h e]; what [m] did before it raised
    stays done. *)
Definition try_except {W A} (m : M W A) (h : exn -> M W A) : M W A :=
  fun st =>
    match m st with
    | (Ret a, st') => (Ret a, st')
    | (Raise e, st') => h e st'
    end.

Definition lift {W A} (o : outcome A) : M W A := fun st => (o, st).

(** The state after one more event. *)
Definition logged {W} (st : state W) (ev : event) : state W :=
  {| world := world st; trace := trace st ++ [ev] |}.

Definition emit {W} (ev : event) : M W unit :=
  fun st => (Ret tt, logged st ev).

(** A request: logged, then answered by the world. *)
Definition request {W A} (c : call) (f : W -> outcome A * W) : M W A :=
  fun st =>
    let (r, w) := f (world st) in
    (r, {| world := w; trace := trace st ++ [Called c] |}).

(** The spreadsheet writes requested in a trace, in order. *)
Fixpoint updates (t : list event) : list (string * string * list (list cell)) :=
  match t with
  | [] => []
  | Called (SheetsUpdate id range data) :: t' => (id, range, data) :: updates t'
  | _ :: t' => updates t'
  end.

(** A computation that requests no spreadsheet write. *)
Definition quiet {W A} (m : M W A) : Prop :=
  forall st, updates (trace (snd (m st))) = updates (trace st).

Declare Scope py_scope.
Delimit Scope py_scope with py.
Notation "x <- m ;; k" := (bind m (fun x => k))
  (at level 61, m at next level, right associativity) : py_scope.
Notation "m ;; k" := (bind m (fun _ => k))
  (at level 61, right associativity) : py_scope.
Open Scope py_scope.

Definition st_error {W} (msg : string) : M W unit := emit (UiError msg).
Definition st_warning {W} (msg : string) : M W unit := emit (UiWarning msg).
Definition st_success {W} (msg : string) : M W unit := emit (UiSuccess msg).
Definition st_write {W} (msg : string) : M W unit := emit (UiWrite msg).
Definition st_markdown {W} (body : string) : M W unit := emit (UiMarkdown body).

(** Truth value of a [str]. *)
Definition truthy (s : string) : bool :=
  match s with EmptyString => false | String _ _ => true end.

Definition str_of_Z (z : Z) : string := NilZero.string_of_int (Z.to_int z).

(** [d.get(key, default)] on a decoded JSON document; only a dict has
    [get]. *)
Fixpoint assoc (key : string) (fields : list (string * json)) : option json :=
  match fields with
  | [] => None
  | (k, v) :: rest => if String.eqb k key then Some v else assoc key rest
  end.

Definition json_get (j : json) (key : string) (default : json) : outcome json :=
  match j with
  | JObj fields =>
      Ret (match assoc key fields with Some v => v | None => default end)
  | _ => Raise (AttributeError "object has no attribute 'get'")
  end.

(** ** The script *)

Definition MAX_CALLS : nat := 15.
Definition PERIOD : nat := 60.

Definition system_prompt : string :=
  "You are a data extraction assistant designed to help users retrieve specific "
  ++ "information from various sources like CSV files, Google Sheets, and web searches. "
  ++ "Your task is to analyze user queries and extract relevant data based on the provided context. "
  ++ "You can utilize tools such as a web search and data extraction APIs to gather necessary information. "
  ++ "Please provide concise and accurate results in the format requested by the user, "
  ++ "and ensure that the answers are tailored to the specific data source (CSV or Google Sheets).".

Inductive source : Type := Upload_CSV | Google_Sheets.

(** What the widgets of one run of the script return.  Streamlit runs the
    script from the top at every action of the user; [run_clicked] and
    [update_clicked] are what the two [st.button] calls return in the
    run. *)
Record inputs : Type := mk_inputs {
  data_source : source;
  uploaded_file : option string;
  google_sheet_url : string;
  main_column : string;
  prompt_template : string;
  run_clicked : bool;
  update_clicked : bool
}.

(** [st.button] returns [True] only in the run that the press of this very
    button starts: a run in which one button was pressed reads the other one
    as not pressed. *)
Definition one_press (i : inputs) : bool :=
  negb (run_clicked i && update_clicked i).

Section Script.

Variable W : Type.
Variable X : externals W.

Definition get_google_sheets_service : M W unit :=
  request SheetsService (build_service X).

(** The [try] block of [read_google_sheet]. *)
Definition read_google_sheet_try (spreadsheet_id range_name : string)
  : M W (option dataframe) :=
  service <- get_google_sheets_service ;;
  sheet_data <- request (SheetsGet spreadsheet_id range_name)
                  (values_get X spreadsheet_id range_name) ;;
  let rows := match values sheet_data with Some v => v | None => [] end in
  columns <- lift (index rows 0) ;;
  df <- lift (pd_DataFrame X (slice_from_1 rows) columns) ;;
  ret (Some df).

Definition read_google_sheet (spreadsheet_id range_name : string)
  : M W (option dataframe) :=
  try_except
    (read_google_sheet_try spreadsheet_id range_name)
    (fun e =>
       st_error ("Error reading Google Sheet: " ++ exn_msg e) ;;
       ret None).

(** The [try] block of [update_google_sheet]. *)
Definition update_google_sheet_try (spreadsheet_id range_name : string)
    (data : list (list cell)) : M W json :=
  service <- get_google_sheets_service ;;
  result <- request (SheetsUpdate spreadsheet_id range_name data)
              (values_update X spreadsheet_id range_name data) ;;
  ret result.

Definition update_google_sheet (spreadsheet_id range_name : string)
    (data : list (list cell)) : M W json :=
  try_except
    (update_google_sheet_try spreadsheet_id range_name data)
    (fun e =>
       st_error ("Error updating Google Sheet: " ++ exn_msg e) ;;
       raise e).

(** The body of [search_web].  Its decorators, [sleep_and_retry] over
    [limits(calls=MAX_CALLS, period=PERIOD)], belong to the [ratelimit]
    package: they delay the call and change neither its argument nor its
    result. *)
Definition search_web (query : string) : M W json :=
  let search_url := "https://serpapi.com/search" in
  try_except
    (response <- request (RequestsGet search_url query)
                   (requests_get X search_url query) ;;
     if (status_code response =? 200)%Z then
       body <- lift (json_body response) ;;
       lift (json_get body "organic_results" (JArr []))
     else
       st_error ("SerpAPI error: " ++ str_of_Z (status_code response)
                 ++ " - " ++ reason response) ;;
       st_error ("Response content: " ++ text response) ;;
       ret (JArr []))
    (fun e =>
       st_error ("An exception occurred while querying SerpAPI: " ++ exn_msg e) ;;
       ret (JArr [])).

Definition query_groq (prompt : string) : M W string :=
  try_except
    (chat_completion <-
       request (GroqCreate system_prompt prompt "mixtral-8x7b-32768")
         (chat_completions_create X system_prompt prompt "mixtral-8x7b-32768") ;;
     content <- lift (index (choices chat_completion) 0) ;;
     ret content)
    (fun e =>
       st_error ("Groq API error: " ++ exn_msg e) ;;
       ret "Error").

(** Lines 141-150: the Google Sheets branch.  The result is the pair of the
    script's variables [spreadsheet_id] and [df] ([None] when unassigned).
    Nothing after the assignment of [spreadsheet_id] raises, so the handler
    runs only with both still [None]. *)
Definition connect_google_sheet (url : string)
  : M W (option string * option dataframe) :=
  if truthy url then
    try_except
      (spreadsheet_id <- lift (index (split "/" url) 5) ;;
       if negb (truthy spreadsheet_id) then
         st_error "Invalid Google Sheets URL" ;;
         ret (Some spreadsheet_id, None)
       else
         df <- read_google_sheet spreadsheet_id "Sheet1" ;;
         ret (Some spreadsheet_id, df))
      (fun e =>
         st_error ("Error processing Google Sheets URL: " ++ exn_msg e) ;;
         ret (None, None))
  else ret (None, None).

(** Lines 189-207: the loop over the distinct values, [extracted_data]
    being the list built so far. *)
Fixpoint extraction_loop (template : string) (total_entities idx : nat)
    (entities : list cell) (extracted_data : list extraction)
  : M W (list extraction) :=
  match entities with
  | [] => ret extracted_data
  | entity :: rest =>
      formatted_prompt <- lift (replace template "{entity}" entity) ;;
      st_write ("Running extraction for: " ++ py_str entity) ;;
      extracted_data' <-
        try_except
          (agent_response <- request (AgentRun formatted_prompt)
                               (agent_run X formatted_prompt) ;;
           ret (extracted_data ++ [mk_extraction entity agent_response])%list)
          (fun e =>
             st_error ("Error processing " ++ py_str entity ++ ": " ++ exn_msg e) ;;
             ret (extracted_data
                    ++ [mk_extraction entity "Error during extraction"])%list) ;;
      emit (UiProgress (idx + 1) total_entities) ;;
      extraction_loop template total_entities (S idx) rest extracted_data'
  end.

(** What the agent is asked and what is kept, entity after entity: the
    records of a batch of string entities started in world [w], and the
    world it leaves. *)
Fixpoint agent_batch (t : string) (names : list string) (w : W)
  : list extraction * W :=
  match names with
  | [] => ([], w)
  | e :: names' =>
      let (r, w') := agent_run X (str_replace t "{entity}" e) w in
      let kept := match r with
                  | Ret answer => answer
                  | Raise _ => "Error during extraction"
                  end in
      let (records, w'') := agent_batch t names' w' in
      (mk_extraction (CStr e) kept :: records, w'')
  end.

(** Lines 185-207: the batch extraction driver. *)
Definition run_data_extraction (df : dataframe) (column template : string)
  : M W (list extraction) :=
  emit UiProgressBar ;;
  column_values <- lift (getitem df column) ;;
  let total_entities := List.length (unique column_values) in
  extraction_loop template total_entities 0 (unique column_values) [].

(** [extracted_df.values.tolist()]. *)
Definition values_tolist (rows : list extraction) : list (list cell) :=
  map (fun r => [Entity r; CStr (Extracted_Data r)]) rows.

(** The rows written for a list of records. *)
Definition sheet_rows (records : list extraction) : list (list cell) :=
  [CStr "Entity"; CStr "Extracted Data"]
    :: map (fun r => [Entity r; CStr (Extracted_Data r)]) records.

Definition dquote : string := String (ascii_of_nat 34) EmptyString.

Definition scrollable_style : string :=
  "<style>.scrollable-table { overflow-x: auto; display: block; white-space: nowrap; }</style>".

(** Lines 245-264: the spreadsheet sync step. *)
Definition sync_sheet (spreadsheet_id : string) (extracted_data : list extraction)
  : M W unit :=
  try_except
    (emit (UiSpinner "Updating Google Sheet...") ;;
     st_write "Preview of data to be updated:" ;;
     emit (UiDataframe extracted_data) ;;
     let header := [[CStr "Entity"; CStr "Extracted Data"]] in
     let data_rows := values_tolist extracted_data in
     let data_to_update := (header ++ data_rows)%list in
     update_google_sheet spreadsheet_id "Sheet1!C1" data_to_update ;;
     st_success "Google Sheet updated successfully!")
    (fun e => st_error ("Failed to update Google Sheet: " ++ exn_msg e)).

(** Lines 210-266: display, download and the optional sync. *)
Definition show_results (i : inputs) (spreadsheet_id : option string)
    (extracted_data : list extraction) : M W unit :=
  match extracted_data with
  | _ :: _ =>
      st_write "Extracted Data" ;;
      st_markdown scrollable_style ;;
      st_markdown ("<div class=" ++ dquote ++ "scrollable-table" ++ dquote ++ ">") ;;
      emit (UiTable extracted_data) ;;
      st_markdown "</div>" ;;
      emit (UiDownload "Download Extracted Data" extracted_data
              "extracted_data.csv" "text/csv") ;;
      match data_source i, spreadsheet_id with
      | Google_Sheets, Some id =>
          if truthy id && update_clicked i then sync_sheet id extracted_data
          else ret tt
      | _, _ => ret tt
      end
  | [] => st_warning "No extracted data to display."
  end.

(** Lines 136-268: one run of the script. *)
Definition script (i : inputs) : M W unit :=
  loaded <-
    match data_source i with
    | Upload_CSV =>
        match uploaded_file i with
        | Some file => df <- lift (pd_read_csv X file) ;; ret (None, Some df)
        | None => ret (None, None)
        end
    | Google_Sheets => connect_google_sheet (google_sheet_url i)
    end ;;
  match snd loaded with
  | Some df =>
      st_write "Preview of Uploaded Data:" ;;
      lift (render_frame X (df_head df)) ;;
      emit (UiHead (df_head df)) ;;
      request InitializeAgent (initialize_agent X) ;;
      if run_clicked i then
        extracted_data <-
          run_data_extraction df (main_column i) (prompt_template i) ;;
        show_results i (fst loaded) extracted_data
      else ret tt
  | None => st_warning "Please upload a file or provide a valid Google Sheets URL."
  end.

End Script.

(** ** Reading a trace

    Projections of a trace, used to say what a run asked of the third
    parties and what it showed. *)

(** The requests of a trace, in order. *)
Fixpoint requests (t : list event) : list call :=
  match t with
  | [] => []
  | Called c :: t' => c :: requests t'
  | _ :: t' => requests t'
  end.

(** The progress updates of a trace: the pairs [(idx + 1, total_entities)]
    whose quotient the progress bar is given. *)
Fixpoint progress_of (t : list event) : list (nat * nat) :=
  match t with
  | [] => []
  | UiProgress done total :: t' => (done, total) :: progress_of t'
  | _ :: t' => progress_of t'
  end.

(** A computation all of whose requests satisfy [P]. *)
Definition only {W A} (P : call -> bool) (m : M W A) : Prop :=
  forall st,
  exists l,
    requests (trace (snd (m st))) = (requests (trace st) ++ l)%list
    /\ forallb P l = true.

Definition is_agent_run (c : call) : bool :=
  match c with AgentRun _ => true | _ => false end.

Definition is_sheets_call (c : call) : bool :=
  match c with
  | SheetsService | SheetsGet _ _ | SheetsUpdate _ _ _ => true
  | _ => false
  end.

(** [sep.join(pieces)]. *)
Fixpoint join (sep : string) (pieces : list string) : string :=
  match pieces with
  | [] => EmptyString
  | [piece] => piece
  | piece :: rest => piece ++ sep ++ join sep rest
  end.

(** The sheet reads [connect_google_sheet] may request: the service, and
    the range ["Sheet1"] of an identifier that is not empty and holds no
    ["/"]. *)
Definition is_sheet1_read (c : call) : bool :=
  match c with
  | SheetsService => true
  | SheetsGet id range =>
      truthy id && negb (contains "/" id) && String.eqb range "Sheet1"
  | _ => false
  end.

(** The state in which [sync_sheet] calls [update_google_sheet]. *)
Definition before_update {W} (st : state W) (records : list extraction)
  : state W :=
  logged (logged (logged st (UiSpinner "Updating Google Sheet..."))
            (UiWrite "Preview of data to be updated:"))
    (UiDataframe records).

(** ** A sample world

    One behaviour of the third parties, used to run the script on examples:
    the world counts the requests answered. *)

Module Demo.

Definition agent (prompt : string) (w : nat) : outcome string * nat :=
  if String.eqb prompt "find B"
  then (Raise (mk_exn "RuntimeError" "agent stopped"), S w)
  else (Ret ("about: " ++ prompt), S w).

Definition get (url query : string) (w : nat) : outcome response * nat :=
  if String.eqb query "down"
  then (Raise (mk_exn "ConnectionError" "connection refused"), S w)
  else if String.eqb query "quota"
  then (Ret (mk_response 429 "Too Many Requests" "slow down"
               (Raise (mk_exn "JSONDecodeError" "Expecting value"))), S w)
  else (Ret (mk_response 200 "OK" "{...}"
               (Ret (JObj [("organic_results",
                            JArr [JObj [("title", JStr "first hit")]])]))), S w).

Definition create (system user model : string) (w : nat)
  : outcome completion * nat :=
  if String.eqb user "fail"
  then (Raise (mk_exn "APIConnectionError" "Connection error."), S w)
  else (Ret (mk_completion ["reply to " ++ user; "second choice"]), S w).

Definition service (w : nat) : outcome unit * nat := (Ret tt, w).

Definition sheet_get (id range : string) (w : nat) : outcome sheet_data * nat :=
  if String.eqb id "SHEETID"
  then (Ret (mk_sheet_data (Some [["Name"]; ["A"]; ["B"]; ["A"]])), S w)
  else (Raise (mk_exn "HttpError" "Requested entity was not found."), S w).

Definition sheet_update (id range : string) (data : list (list cell)) (w : nat)
  : outcome json * nat :=
  if String.eqb id "SHEETID"
  then (Ret (JObj [("updatedRange", JStr range)]), S w)
  else (Raise (mk_exn "HttpError" "The caller does not have permission"), S w).

Definition init (w : nat) : outcome unit * nat := (Ret tt, w).

(** A frame of the first column only, enough for the examples. *)
Definition frame (rows : list (list string)) (columns : list string)
  : outcome dataframe :=
  match columns with
  | [] => Raise (mk_exn "ValueError" "no columns")
  | label :: _ =>
      Ret [(label, map (fun row => match row with
                                   | x :: _ => CStr x
                                   | [] => CNone
                                   end) rows)]
  end.

Definition read_csv (file : string) : outcome dataframe :=
  Ret [("Name", [CStr "A"; CStr "B"; CStr "A"])].

Fixpoint has_repeat (labels : list string) : bool :=
  match labels with
  | [] => false
  | label :: rest => existsb (String.eqb label) rest || has_repeat rest
  end.

Definition render (df : dataframe) : outcome unit :=
  if has_repeat (map fst df)
  then Raise (mk_exn "ValueError" "Duplicate column names found")
  else Ret tt.

Definition X : externals nat :=
  mk_externals agent get create service sheet_get sheet_update init
    frame read_csv render.

(** The same world with a credentials file that cannot be read. *)
Definition X_no_credentials : externals nat :=
  mk_externals agent get create
    (fun w => (Raise (mk_exn "FileNotFoundError" "credentials.json"), w))
    sheet_get sheet_update init frame read_csv render.

Definition st0 : state nat := {| world := 0; trace := [] |}.

Definition names : dataframe := [("Name", [CStr "A"; CStr "B"; CStr "A"])].
Definition ids : dataframe := [("Id", [CInt 1; CInt 2])].
Definition with_gap : dataframe := [("Name", [CStr "B"; CMissing; CStr "C"])].
Definition no_rows : dataframe := [("Name", [])].

(** The same world with a spreadsheet that cannot be written. *)
Definition X_read_only : externals nat :=
  mk_externals agent get create service sheet_get
    (fun id range data w =>
       (Raise (mk_exn "HttpError" "The caller does not have permission"), S w))
    init frame read_csv render.

(** The same world with a spreadsheet that has no cell. *)
Definition X_empty_sheet : externals nat :=
  mk_externals agent get create service
    (fun id range w => (Ret (mk_sheet_data None), S w))
    sheet_update init frame read_csv render.

(** The same world with a model that answers without a choice. *)
Definition X_no_choice : externals nat :=
  mk_externals agent get
    (fun system user model w => (Ret (mk_completion []), S w))
    service sheet_get sheet_update init frame read_csv render.

Definition upload (run : bool) : inputs :=
  mk_inputs Upload_CSV (Some "Name,A,B,A") "" "Name" "find {entity}" run true.

(** The same world with a search service that answers 200 with a body that
    is not JSON. *)
Definition X_bad_body : externals nat :=
  mk_externals agent
    (fun url query w =>
       (Ret (mk_response 200 "OK" "<html>"
               (Raise (mk_exn "JSONDecodeError" "Expecting value"))), S w))
    create service sheet_get sheet_update init frame read_csv render.

(** The same world with a search service that answers 200 with [null]
    under ["organic_results"]. *)
Definition X_null_results : externals nat :=
  mk_externals agent
    (fun url query w =>
       (Ret (mk_response 200 "OK" "{...}"
               (Ret (JObj [("organic_results", JNull)]))), S w))
    create service sheet_get sheet_update init frame read_csv render.

(** The run the press of "Update Google Sheet" starts, on the sheet of the
    sample world. *)
Definition update_press : inputs :=
  mk_inputs Google_Sheets None
    "https://docs.google.com/spreadsheets/d/SHEETID/edit"
    "Name" "find {entity}" false true.

End Demo.

(** * Properties *)

(** ** Strings *)

Lemma sapp_assoc (a b c : string) : (a ++ b) ++ c = a ++ (b ++ c).
Proof. induction a as [|x a IH]; simpl; [reflexivity | now rewrite IH]. Qed.

Lemma sapp_nil_r (a : string) : a ++ "" = a.
Proof. induction a as [|x a IH]; simpl; [reflexivity | now rewrite IH]. Qed.

Lemma slength_app (a b : string) :
  String.length (a ++ b) = String.length a + String.length b.
Proof. induction a as [|x a IH]; simpl; [reflexivity | now rewrite IH]. Qed.

Lemma prefix_iff (a s : string) : prefix a s = true <-> exists r, s = a ++ r.
Proof.
  revert s; induction a as [|x a IH]; intros s.
  - split; [intros _; now exists s | intros _; now destruct s].
  - destruct s as [|y s]; simpl.
    + split; [discriminate | intros [r Hr]; discriminate].
    + destruct (ascii_dec x y) as [->|Hxy].
      * rewrite IH. split; intros [r Hr]; exists r; [now rewrite Hr | now inversion Hr].
      * split; [discriminate | intros [r Hr]; inversion Hr; congruence].
Qed.

Lemma occurs_cons (old : string) (c : ascii) (s : string) :
  occurs old (String c s) <-> prefix old (String c s) = true \/ occurs old s.
Proof.
  split.
  - intros [[|x pre] [post H]].
    + left. apply prefix_iff. now exists post.
    + right. inversion H; subst. now exists pre, post.
  - intros [H | [pre [post H]]].
    + apply prefix_iff in H as [r Hr]. now exists "", r.
    + exists (String c pre), post. simpl. now rewrite H.
Qed.

Lemma occurs_app_l (old a b : string) : occurs old a -> occurs old (a ++ b).
Proof.
  intros [pre [post H]]. exists pre, (post ++ b).
  now rewrite H, !sapp_assoc.
Qed.

(** Without an occurrence the scan copies its input. *)
Lemma replace_scan_absent (old new s : string) :
  ~ occurs old s -> replace_scan old new 0 s = s.
Proof.
  induction s as [|c s IH]; intros Hno; cbn [replace_scan]; [reflexivity|].
  destruct (prefix old (String c s)) eqn:Hp.
  - exfalso. apply Hno, occurs_cons. now left.
  - rewrite IH; [reflexivity|]. intros Hs. apply Hno, occurs_cons. now right.
Qed.

(** The characters of a found occurrence are passed over. *)
Lemma replace_scan_skip (old new a s : string) :
  replace_scan old new (String.length a) (a ++ s) = replace_scan old new 0 s.
Proof.
  induction a as [|c a IH]; simpl; [|exact IH].
  destruct s; reflexivity.
Qed.

Lemma replace_scan_here (old new post : string) :
  old <> "" ->
  replace_scan old new 0 (old ++ post) = new ++ replace_scan old new 0 post.
Proof.
  destruct old as [|c old]; [congruence|]; intros _.
  change (String c old ++ post) with (String c (old ++ post)).
  cbn [replace_scan].
  replace (prefix (String c old) (String c (old ++ post))) with true.
  - cbn [String.length]. rewrite Nat.sub_succ, Nat.sub_0_r.
    now rewrite replace_scan_skip.
  - symmetry. apply prefix_iff. now exists post.
Qed.

(** Before the first occurrence the scan copies its input. *)
Lemma replace_scan_before (old new pre rest : string) :
  (forall a b, pre = a ++ b -> b <> "" -> prefix old (b ++ rest) = false) ->
  replace_scan old new 0 (pre ++ rest) = pre ++ replace_scan old new 0 rest.
Proof.
  induction pre as [|c pre IH]; intros H; [reflexivity|].
  change (String c pre ++ rest) with (String c (pre ++ rest)).
  cbn [replace_scan].
  assert (Hp : prefix old (String c (pre ++ rest)) = false)
    by (apply (H "" (String c pre) eq_refl); discriminate).
  rewrite Hp. simpl. f_equal. apply IH. intros a b -> Hb.
  apply (H (String c a) b); [reflexivity | exact Hb].
Qed.

(** The token ["{entity}"] does not overlap itself: an occurrence that
    starts before another one ends before it. *)
Lemma entity_token_no_overlap (b post : string) :
  b <> "" ->
  prefix "{entity}" (b ++ "{entity}" ++ post) = true ->
  occurs "{entity}" b.
Proof.
  intros Hb H. apply prefix_iff in H as [r H].
  destruct b as [|c1 b]; [congruence|]. clear Hb.
  simpl in H. injection H as -> H.
  do 7 (destruct b as [|? b]; simpl in H; [discriminate | injection H as -> H]).
  now exists "", b.
Qed.

Lemma occurs_empty (s : string) : occurs "" s.
Proof. now exists "", s. Qed.

Lemma str_replace_absent (s old new : string) :
  ~ occurs old s -> str_replace s old new = s.
Proof.
  intros Hno. destruct old as [|c old].
  - exfalso. apply Hno, occurs_empty.
  - apply replace_scan_absent, Hno.
Qed.

(** The leftmost occurrence of the token is replaced and the scan goes on
    behind it. *)
Lemma str_replace_entity_first (pre post new : string) :
  ~ occurs "{entity}" pre ->
  str_replace (pre ++ "{entity}" ++ post) "{entity}" new
  = pre ++ new ++ str_replace post "{entity}" new.
Proof.
  intros Hno. unfold str_replace.
  rewrite replace_scan_before.
  - now rewrite replace_scan_here by discriminate.
  - intros a b -> Hb.
    destruct (prefix "{entity}" (b ++ "{entity}" ++ post)) eqn:Hp; [|reflexivity].
    exfalso. apply Hno.
    destruct (entity_token_no_overlap _ Hb Hp) as [p [q Hq]].
    exists (a ++ p), q. now rewrite Hq, sapp_assoc.
Qed.

(** ** Distinct values *)

Lemma cell_eqb_eq (a b : cell) : cell_eqb a b = true <-> a = b.
Proof.
  destruct a, b; simpl; try (split; [discriminate | congruence]).
  - rewrite String.eqb_eq. split; congruence.
  - rewrite Z.eqb_eq. split; congruence.
  - split; reflexivity.
  - split; reflexivity.
Qed.

Lemma mem_In (c : cell) (l : list cell) : mem c l = true <-> In c l.
Proof.
  unfold mem. rewrite existsb_exists. split.
  - intros [x [Hx He]]. apply cell_eqb_eq in He. now subst.
  - intros H. exists c. split; [exact H | now apply cell_eqb_eq].
Qed.

Lemma mem_false (c : cell) (l : list cell) : mem c l = false <-> ~ In c l.
Proof.
  rewrite <- mem_In. destruct (mem c l); split; congruence.
Qed.

Lemma unique_from_In (seen l : list cell) (c : cell) :
  In c (unique_from seen l) <-> In c l /\ ~ In c seen.
Proof.
  revert seen; induction l as [|x l IH]; intros seen; simpl.
  - tauto.
  - destruct (mem x seen) eqn:Hm.
    + apply mem_In in Hm. rewrite IH. split.
      * tauto.
      * intros [[-> | H] Hs]; tauto.
    + apply mem_false in Hm. simpl. rewrite IH. simpl. split.
      * intros [-> | [H Hs]]; tauto.
      * intros [[-> | H] Hs]; [now left|].
        destruct (cell_eqb x c) eqn:He.
        -- apply cell_eqb_eq in He. now left.
        -- right. split; [exact H|]. intros [E | E]; [|tauto].
           subst. assert (cell_eqb c c = true) by now apply cell_eqb_eq.
           congruence.
Qed.

Lemma unique_from_NoDup (seen l : list cell) : NoDup (unique_from seen l).
Proof.
  revert seen; induction l as [|x l IH]; intros seen; simpl.
  - constructor.
  - destruct (mem x seen); [apply IH|].
    constructor; [|apply IH].
    rewrite unique_from_In. simpl. tauto.
Qed.

(** Every value of the column is among the distinct values, and conversely. *)
Lemma unique_In (l : list cell) (c : cell) : In c (unique l) <-> In c l.
Proof. unfold unique. rewrite unique_from_In. simpl. tauto. Qed.

Lemma unique_NoDup (l : list cell) : NoDup (unique l).
Proof. apply unique_from_NoDup. Qed.

Lemma mem_app (c : cell) (a b : list cell) : mem c (a ++ b) = mem c a || mem c b.
Proof. apply existsb_app. Qed.

Lemma unique_from_snoc (seen l : list cell) (c : cell) :
  unique_from seen (l ++ [c])
  = if mem c seen || mem c l then unique_from seen l
    else (unique_from seen l ++ [c])%list.
Proof.
  revert seen; induction l as [|x l IH]; intros seen; simpl.
  - rewrite orb_false_r. now destruct (mem c seen).
  - destruct (mem x seen) eqn:Hm.
    + rewrite IH. destruct (cell_eqb c x) eqn:He; simpl.
      * apply cell_eqb_eq in He; subst. rewrite Hm. reflexivity.
      * reflexivity.
    + rewrite IH. simpl. rewrite (orb_comm (cell_eqb c x)).
      rewrite <- orb_assoc, (orb_comm (cell_eqb c x)), orb_assoc.
      destruct (mem c seen || mem c l || cell_eqb c x); reflexivity.
Qed.

(** First-occurrence order: reading the column from the top, a value joins
    the end of the distinct values exactly when it has not been met yet. *)
Lemma unique_snoc (l : list cell) (c : cell) :
  unique (l ++ [c]) = if mem c l then unique l else (unique l ++ [c])%list.
Proof. unfold unique. now rewrite unique_from_snoc. Qed.

(** ** Traces *)

Lemma updates_app (a b : list event) :
  updates (a ++ b) = (updates a ++ updates b)%list.
Proof.
  induction a as [|ev a IH]; [reflexivity|].
  simpl. destruct ev; try exact IH. destruct c; try exact IH.
  simpl. now rewrite IH.
Qed.

(** ** Running the monad *)

Ltac unfold_py :=
  unfold st_error, st_warning, st_success, st_write, st_markdown,
    bind, try_except, lift, ret, raise, emit, request in *.

Section Contracts.

Variable W : Type.
Variable X : externals W.

(** ** The model query (C4) *)

(** C4.  For every prompt and every state of the world [query_groq]
    returns: it never raises.  When the API call raises, whatever the
    exception, the value returned is the literal string ["Error"]; when the
    call answers with at least one choice, the value returned is the text of
    the first choice. *)
Theorem query_groq_contract (prompt : string) (st : state W) :
  let api := chat_completions_create X system_prompt prompt "mixtral-8x7b-32768" in
  (exists v st', query_groq X prompt st = (Ret v, st'))
  /\ (forall e w, api (world st) = (Raise e, w) ->
        query_groq X prompt st
        = (Ret "Error",
           logged {| world := w;
                     trace := trace st
                       ++ [Called (GroqCreate system_prompt prompt "mixtral-8x7b-32768")] |}
             (UiError ("Groq API error: " ++ exn_msg e))))
  /\ (forall first others w,
        api (world st) = (Ret (mk_completion (first :: others)), w) ->
        fst (query_groq X prompt st) = Ret first).
Proof.
  intros api. subst api. unfold query_groq. unfold_py.
  destruct (chat_completions_create X system_prompt prompt "mixtral-8x7b-32768"
              (world st)) as [[[[|c cs]]|e] w] eqn:Hapi; simpl.
  - split; [eauto|]. split; intros; congruence.
  - split; [eauto|]. split; intros; [congruence|]. now inversion H.
  - split; [eauto|]. split; intros; [|congruence]. now inversion H.
Qed.

(** ** The web search (C6) *)

(** C6, as amended.  For every query and every state of the world
    [search_web] returns: it never raises.  The value is the empty list
    when the transport raises and when the status is not 200.  On a 200
    whose body decodes to an object, the value is whatever the body holds
    under ["organic_results"], the empty list when the key is absent: a
    list whenever the service keeps a list under that key.  On a 200 with
    any other body the value is the empty list. *)
Theorem search_web_contract (query : string) (st : state W) :
  let get := requests_get X "https://serpapi.com/search" query in
  (exists v st', search_web X query st = (Ret v, st'))
  /\ (forall e w, get (world st) = (Raise e, w) ->
        fst (search_web X query st) = Ret (JArr []))
  /\ (forall r w, get (world st) = (Ret r, w) -> status_code r <> 200%Z ->
        fst (search_web X query st) = Ret (JArr []))
  /\ (forall r w fields, get (world st) = (Ret r, w) -> status_code r = 200%Z ->
        json_body r = Ret (JObj fields) ->
        fst (search_web X query st)
        = Ret (match assoc "organic_results" fields with
               | Some results => results
               | None => JArr []
               end))
  /\ (forall r w, get (world st) = (Ret r, w) -> status_code r = 200%Z ->
        (forall fields results, json_body r = Ret (JObj fields) ->
           assoc "organic_results" fields = Some results ->
           is_list results = true) ->
        exists items, fst (search_web X query st) = Ret (JArr items))
  /\ (forall r w, get (world st) = (Ret r, w) -> status_code r = 200%Z ->
        (forall fields, json_body r <> Ret (JObj fields)) ->
        fst (search_web X query st) = Ret (JArr [])).
Proof.
  intros get. subst get. unfold search_web. unfold_py.
  destruct (requests_get X "https://serpapi.com/search" query (world st))
    as [[r|e] w] eqn:Hget; simpl.
  2: { split; [eauto|]. repeat split; intros; try congruence. }
  destruct (Z.eqb_spec (status_code r) 200) as [H200|H200]; simpl.
  2: { split; [eauto|]. repeat split; intros; try congruence. }
  destruct (json_body r) as [body|e] eqn:Hbody; simpl.
  2: { split; [eauto|]. repeat split; intros; try congruence; eauto. }
  destruct body; simpl;
    (split; [eauto|]); repeat split; intros; try congruence; eauto.
  - match goal with
    | H : (Ret _, _) = (Ret _, _) |- _ => inversion H; subst; clear H
    end.
    match goal with
    | H : json_body _ = Ret (JObj ?f) |- context [assoc _ ?f] =>
        rewrite Hbody in H; inversion H; subst; reflexivity
    end.
  - match goal with
    | H : (Ret _, _) = (Ret _, _) |- _ => inversion H; subst; clear H
    end.
    destruct (assoc "organic_results" fields) as [results|] eqn:Ha; [|eauto].
    match goal with
    | H : forall f r, _ -> assoc _ f = Some r -> _ |- _ =>
        specialize (H fields results Hbody Ha)
    end.
    destruct results; try discriminate. eauto.
Qed.

(** ** Reading and updating the sheet (C8) *)

Lemma read_google_sheet_returns (id range : string) (st : state W) :
  exists r st', read_google_sheet X id range st = (Ret r, st').
Proof.
  unfold read_google_sheet, try_except.
  destruct (read_google_sheet_try X id range st) as [[r|e] st1]; [eauto|].
  unfold_py. eauto.
Qed.

(** C8.  Whatever makes the [try] block of [read_google_sheet] raise, the
    helper shows its message and returns [None]: it never raises.  Whatever
    makes the [try] block of [update_google_sheet] raise, the helper shows
    its message and raises the same exception again.  In particular, when
    the service cannot be built the read returns [None] and the update
    raises. *)
Theorem sheet_helpers_failure_propagation
    (id range : string) (data : list (list cell)) (st : state W) :
  (exists r st', read_google_sheet X id range st = (Ret r, st'))
  /\ (forall e st1, read_google_sheet_try X id range st = (Raise e, st1) ->
        read_google_sheet X id range st
        = (Ret None, logged st1 (UiError ("Error reading Google Sheet: " ++ exn_msg e))))
  /\ (forall e st1, update_google_sheet_try X id range data st = (Raise e, st1) ->
        update_google_sheet X id range data st
        = (Raise e, logged st1 (UiError ("Error updating Google Sheet: " ++ exn_msg e))))
  /\ (forall e w, build_service X (world st) = (Raise e, w) ->
        fst (read_google_sheet X id range st) = Ret None
        /\ fst (update_google_sheet X id range data st) = Raise e)
  /\ (forall e w w', build_service X (world st) = (Ret tt, w) ->
        values_get X id range w = (Raise e, w') ->
        fst (read_google_sheet X id range st) = Ret None)
  /\ (forall e w w', build_service X (world st) = (Ret tt, w) ->
        values_update X id range data w = (Raise e, w') ->
        fst (update_google_sheet X id range data st) = Raise e).
Proof.
  split; [apply read_google_sheet_returns|].
  split; [|split].
  - intros e st1 H. unfold read_google_sheet, try_except. rewrite H.
    reflexivity.
  - intros e st1 H. unfold update_google_sheet, try_except. rewrite H.
    reflexivity.
  - unfold read_google_sheet, update_google_sheet, read_google_sheet_try,
      update_google_sheet_try, get_google_sheets_service.
    unfold_py. repeat split; intros.
    + rewrite H. reflexivity.
    + rewrite H. reflexivity.
    + rewrite H. simpl. rewrite H0. reflexivity.
    + rewrite H. simpl. rewrite H0. reflexivity.
Qed.

(** ** The spreadsheet URL (C5) *)

Lemma split_nonempty (sep : ascii) (s : string) : split sep s <> [].
Proof.
  destruct s as [|c s]; simpl; [discriminate|].
  destruct (Ascii.eqb c sep); [discriminate|].
  destruct (split sep s); discriminate.
Qed.

Lemma index_short {A} (l : list A) (i : nat) :
  List.length l <= i -> index l i = Raise (IndexError "list index out of range").
Proof.
  intros H. unfold index. apply nth_error_None in H. now rewrite H.
Qed.

Lemma connect_google_sheet_short (url : string) (st : state W) :
  List.length (split "/" url) < 6 ->
  connect_google_sheet X url st
  = (Ret (None, None),
     if truthy url
     then logged st (UiError "Error processing Google Sheets URL: list index out of range")
     else st).
Proof.
  intros H. unfold connect_google_sheet.
  destruct (truthy url); [|reflexivity].
  unfold_py. rewrite index_short by lia. reflexivity.
Qed.

(** C5.  The identifier is the piece of index 5 of the URL split at ["/"]:
    for ["https://docs.google.com/spreadsheets/d/SHEETID/edit"] it is
    ["SHEETID"], and the sheet read is the one of that identifier.  A URL of
    fewer than 6 pieces assigns neither [spreadsheet_id] nor [df], makes no
    request and lets no exception out; the script then ends with its
    warning. *)
Theorem spreadsheet_url_parsing :
  index (split "/" "https://docs.google.com/spreadsheets/d/SHEETID/edit") 5
  = Ret "SHEETID"
  /\ (forall url id st, index (split "/" url) 5 = Ret id -> id <> "" ->
        connect_google_sheet X url st
        = (df <- read_google_sheet X id "Sheet1" ;; ret (Some id, df)) st)
  /\ (forall url st, List.length (split "/" url) < 6 ->
        exists st', connect_google_sheet X url st = (Ret (None, None), st')
                    /\ world st' = world st)
  /\ (forall i st, data_source i = Google_Sheets ->
        List.length (split "/" (google_sheet_url i)) < 6 ->
        exists st', script X i st = (Ret tt, st')
                    /\ world st' = world st
                    /\ updates (trace st') = updates (trace st)
                    /\ In (UiWarning "Please upload a file or provide a valid Google Sheets URL.")
                         (trace st')).
Proof.
  split; [reflexivity|]. split; [|split].
  - intros url id st Hid Hne. unfold connect_google_sheet.
    destruct url as [|c url]; [discriminate|]. cbn [truthy].
    unfold try_except, bind at 1, lift at 1. rewrite Hid.
    destruct id as [|d id]; [congruence|]. cbn [truthy negb].
    destruct (read_google_sheet_returns (String d id) "Sheet1" st)
      as [r [st' Hr]].
    unfold bind, ret. rewrite Hr. reflexivity.
  - intros url st H. rewrite connect_google_sheet_short by exact H.
    eexists; split; [reflexivity|]. now destruct (truthy url).
  - intros i st Hsrc H. unfold script. rewrite Hsrc.
    unfold bind at 1. rewrite connect_google_sheet_short by exact H.
    cbn [snd]. unfold st_warning, emit.
    eexists; split; [reflexivity|].
    destruct (truthy (google_sheet_url i)); cbn [world trace logged].
    + repeat split.
      * rewrite !updates_app. simpl. now rewrite !app_nil_r.
      * apply in_or_app. right. now left.
    + repeat split.
      * rewrite !updates_app. simpl. now rewrite !app_nil_r.
      * apply in_or_app. right. now left.
Qed.

(** ** The batch extraction driver *)

(** One turn of the loop on a string entity. *)
Lemma extraction_loop_string (t : string) (total idx : nat) (e : string)
    (rest : list cell) (acc : list extraction) (st : state W) :
  extraction_loop X t total idx (CStr e :: rest) acc st
  = let prompt := str_replace t "{entity}" e in
    let st1 := logged st (UiWrite ("Running extraction for: " ++ e)) in
    let st2 w := {| world := w; trace := trace st1 ++ [Called (AgentRun prompt)] |} in
    match agent_run X prompt (world st) with
    | (Ret answer, w) =>
        extraction_loop X t total (S idx) rest
          (acc ++ [mk_extraction (CStr e) answer])
          (logged (st2 w) (UiProgress (idx + 1) total))
    | (Raise ex, w) =>
        extraction_loop X t total (S idx) rest
          (acc ++ [mk_extraction (CStr e) "Error during extraction"])
          (logged (logged (st2 w)
                     (UiError ("Error processing " ++ e ++ ": " ++ exn_msg ex)))
             (UiProgress (idx + 1) total))
    end.
Proof.
  cbn [extraction_loop replace py_str]. unfold_py. cbn [logged world trace].
  destruct (agent_run X (str_replace t "{entity}" e) (world st)) as [[a|ex] w];
    reflexivity.
Qed.

(** One turn of the loop on an entity that is not a string. *)
Lemma extraction_loop_nonstring (t : string) (total idx : nat) (c : cell)
    (rest : list cell) (acc : list extraction) (st : state W) :
  is_str c = false ->
  extraction_loop X t total idx (c :: rest) acc st
  = (Raise (TypeError ("replace() argument 2 must be str, not " ++ type_name c)), st).
Proof.
  intros Hc. destruct c; [discriminate| | |]; reflexivity.
Qed.

Lemma extraction_loop_app (t : string) (total : nat) (pre rest : list cell) :
  forall idx acc st,
  extraction_loop X t total idx (pre ++ rest) acc st
  = match extraction_loop X t total idx pre acc st with
    | (Ret acc', st') =>
        extraction_loop X t total (idx + List.length pre) rest acc' st'
    | (Raise e, st') => (Raise e, st')
    end.
Proof.
  induction pre as [|c pre IH]; intros idx acc st.
  - cbn [app List.length extraction_loop]. unfold ret.
    now rewrite Nat.add_0_r.
  - destruct c as [e| | |].
    + rewrite <- app_comm_cons, !extraction_loop_string. cbv zeta.
      destruct (agent_run X (str_replace t "{entity}" e) (world st))
        as [[a|ex] w]; rewrite IH; cbn [List.length];
        replace (idx + S (List.length pre)) with (S idx + List.length pre) by lia;
        reflexivity.
    + rewrite <- app_comm_cons, !extraction_loop_nonstring by reflexivity.
      reflexivity.
    + rewrite <- app_comm_cons, !extraction_loop_nonstring by reflexivity.
      reflexivity.
    + rewrite <- app_comm_cons, !extraction_loop_nonstring by reflexivity.
      reflexivity.
Qed.

Lemma agent_batch_entities (t : string) (names : list string) (w : W) :
  map Entity (fst (agent_batch X t names w)) = map CStr names.
Proof.
  revert w; induction names as [|e names IH]; intros w; [reflexivity|].
  cbn [agent_batch].
  destruct (agent_run X (str_replace t "{entity}" e) w) as [r w'].
  specialize (IH w'). destruct (agent_batch X t names w') as [records w''].
  cbn [fst map Entity] in *. now rewrite IH.
Qed.

(** On string entities the loop never raises and keeps one record per
    entity. *)
Lemma extraction_loop_strings (t : string) (total : nat) (names : list string) :
  forall idx acc st,
  exists st',
    extraction_loop X t total idx (map CStr names) acc st
    = (Ret (acc ++ fst (agent_batch X t names (world st)))%list, st')
    /\ world st' = snd (agent_batch X t names (world st))
    /\ updates (trace st') = updates (trace st).
Proof.
  induction names as [|e names IH]; intros idx acc st.
  - exists st. cbn. unfold ret. now rewrite app_nil_r.
  - cbn [map]. rewrite extraction_loop_string. cbv zeta.
    cbn [agent_batch].
    destruct (agent_run X (str_replace t "{entity}" e) (world st))
      as [[a|ex] w].
    + match goal with
      | |- context [extraction_loop X t total (S idx) _ ?acc' ?st1] =>
          destruct (IH (S idx) acc' st1) as [st' [Hrun [Hw Hu]]]
      end.
      cbn [logged world trace] in *.
      destruct (agent_batch X t names w) as [records w''].
      exists st'. cbn [fst snd] in *. rewrite Hrun, <- app_assoc.
      split; [reflexivity|]. split; [exact Hw|].
      rewrite Hu, !updates_app. simpl. now rewrite !app_nil_r.
    + match goal with
      | |- context [extraction_loop X t total (S idx) _ ?acc' ?st1] =>
          destruct (IH (S idx) acc' st1) as [st' [Hrun [Hw Hu]]]
      end.
      cbn [logged world trace] in *.
      destruct (agent_batch X t names w) as [records w''].
      exists st'. cbn [fst snd] in *. rewrite Hrun, <- app_assoc.
      split; [reflexivity|]. split; [exact Hw|].
      rewrite Hu, !updates_app. simpl. now rewrite !app_nil_r.
Qed.

Lemma strings_of_all (l : list cell) :
  Forall (fun c => is_str c = true) l -> map CStr (strings_of l) = l.
Proof.
  induction 1 as [|c l Hc _ IH]; [reflexivity|].
  destruct c; try discriminate. cbn. now rewrite IH.
Qed.

Lemma first_nonstring (l : list cell) :
  (exists c, In c l /\ is_str c = false) ->
  exists pre c post,
    l = (pre ++ c :: post)%list
    /\ Forall (fun x => is_str x = true) pre /\ is_str c = false.
Proof.
  induction l as [|x l IH]; intros [c [Hin Hc]]; [contradiction|].
  destruct (is_str x) eqn:Hx.
  - destruct IH as [pre [c' [post [Hl [Hpre Hc']]]]].
    + destruct Hin as [->|Hin]; [congruence|]. now exists c.
    + exists (x :: pre), c', post. rewrite Hl. repeat split; auto.
  - exists [], x, l. repeat split; auto.
Qed.

(** On a column of strings the driver returns one record per distinct
    value, in the order of [unique]: the order of first occurrence. *)
Theorem run_data_extraction_strings (df : dataframe) (column t : string)
    (values : list cell) (st : state W) :
  getitem df column = Ret values ->
  Forall (fun c => is_str c = true) values ->
  exists records st',
    run_data_extraction X df column t st = (Ret records, st')
    /\ records = fst (agent_batch X t (strings_of (unique values)) (world st))
    /\ map Entity records = unique values
    /\ List.length records = List.length (unique values).
Proof.
  intros Hget Hall.
  assert (Hu : map CStr (strings_of (unique values)) = unique values).
  { apply strings_of_all, Forall_forall. intros c Hc.
    apply (proj1 (unique_In _ _)) in Hc.
    rewrite Forall_forall in Hall. now apply Hall. }
  unfold run_data_extraction. unfold_py. rewrite Hget.
  destruct (extraction_loop_strings t (List.length (unique values))
              (strings_of (unique values)) 0 [] (logged st UiProgressBar))
    as [st' [Hrun _]].
  rewrite Hu in Hrun. cbn [logged world] in Hrun.
  eexists _, st'. split; [exact Hrun|]. split; [reflexivity|].
  cbn [app]. assert (He := agent_batch_entities t (strings_of (unique values)) (world st)).
  rewrite Hu in He. split; [exact He|].
  rewrite <- (length_map Entity). now rewrite He.
Qed.

(** C10.  [str.replace] raises [TypeError] for every entity that is not a
    string, whatever the template.  In the loop this happens before the
    [try]: at the first such entity the loop raises that [TypeError] in the
    state the entities before it left, with nothing shown, asked or recorded
    for the entity and the ones after it.  So a column that holds a value
    that is not a string makes the whole driver raise instead of returning
    records. *)
Theorem nonstring_entity_aborts_batch (t : string) :
  (forall c, is_str c = false ->
     replace t "{entity}" c
     = Raise (TypeError ("replace() argument 2 must be str, not " ++ type_name c)))
  /\ (forall total idx pre c post acc st,
        Forall (fun x => is_str x = true) pre -> is_str c = false ->
        exists acc' st',
          extraction_loop X t total idx pre acc st = (Ret acc', st')
          /\ extraction_loop X t total idx (pre ++ c :: post) acc st
             = (Raise (TypeError ("replace() argument 2 must be str, not "
                                  ++ type_name c)), st'))
  /\ (forall df column values st,
        getitem df column = Ret values ->
        (exists c, In c values /\ is_str c = false) ->
        exists c st',
          In c values /\ is_str c = false
          /\ run_data_extraction X df column t st
             = (Raise (TypeError ("replace() argument 2 must be str, not "
                                  ++ type_name c)), st')).
Proof.
  assert (Hloop : forall total idx pre c post acc st,
        Forall (fun x => is_str x = true) pre -> is_str c = false ->
        exists acc' st',
          extraction_loop X t total idx pre acc st = (Ret acc', st')
          /\ extraction_loop X t total idx (pre ++ c :: post) acc st
             = (Raise (TypeError ("replace() argument 2 must be str, not "
                                  ++ type_name c)), st')).
  { intros total idx pre c post acc st Hpre Hc.
    rewrite extraction_loop_app. rewrite <- (strings_of_all Hpre).
    destruct (extraction_loop_strings t total (strings_of pre) idx acc st)
      as [st' [Hrun _]].
    rewrite Hrun. eexists _, st'. split; [reflexivity|].
    now apply extraction_loop_nonstring. }
  split; [|split; [exact Hloop|]].
  - intros c Hc. destruct c; [discriminate| | |]; reflexivity.
  - intros df column values st Hget Hex.
    assert (Hex' : exists c, In c (unique values) /\ is_str c = false).
    { destruct Hex as [c [Hin Hc]]. exists c. now rewrite unique_In. }
    destruct (first_nonstring (unique values) Hex') as [pre [c [post [Hl [Hpre Hc]]]]].
    destruct (Hloop (List.length (unique values)) 0 pre c post []
                (logged st UiProgressBar) Hpre Hc) as [acc' [st' [_ Hrun]]].
    exists c, st'. split; [|split; [exact Hc|]].
    + apply unique_In. rewrite Hl. apply in_or_app. right. now left.
    + rewrite <- Hl in Hrun.
      unfold run_data_extraction. unfold_py. rewrite Hget. exact Hrun.
Qed.

(** ** The spreadsheet sync (C9) *)

Lemma quiet_ret {A} (a : A) : quiet (W := W) (ret a).
Proof. intros st. reflexivity. Qed.

Lemma quiet_raise {A} (e : exn) : quiet (W := W) (raise (A := A) e).
Proof. intros st. reflexivity. Qed.

Lemma quiet_lift {A} (o : outcome A) : quiet (W := W) (lift o).
Proof. intros st. reflexivity. Qed.

Lemma quiet_emit (ev : event) :
  updates [ev] = [] -> quiet (W := W) (emit ev).
Proof.
  intros H st. unfold emit, logged. cbn [snd trace].
  now rewrite updates_app, H, app_nil_r.
Qed.

Lemma quiet_request {A} (c : call) (f : W -> outcome A * W) :
  updates [Called c] = [] -> quiet (request c f).
Proof.
  intros H st. unfold request. destruct (f (world st)) as [r w].
  cbn [snd trace]. now rewrite updates_app, H, app_nil_r.
Qed.

Lemma quiet_bind {A B} (m : M W A) (k : A -> M W B) :
  quiet m -> (forall a, quiet (k a)) -> quiet (bind m k).
Proof.
  intros Hm Hk st. unfold bind. specialize (Hm st).
  destruct (m st) as [[a|e] st1]; cbn [snd] in *; [|exact Hm].
  now rewrite Hk.
Qed.

Lemma quiet_try {A} (m : M W A) (h : exn -> M W A) :
  quiet m -> (forall e, quiet (h e)) -> quiet (try_except m h).
Proof.
  intros Hm Hh st. unfold try_except. specialize (Hm st).
  destruct (m st) as [[a|e] st1]; cbn [snd] in *; [exact Hm|].
  now rewrite Hh.
Qed.

Ltac quiet_step :=
  first
    [ apply quiet_ret | apply quiet_raise | apply quiet_lift
    | apply quiet_emit; reflexivity
    | apply quiet_request; reflexivity
    | apply quiet_bind; [|intro]
    | apply quiet_try; [|intro] ].

Ltac quiet_tac :=
  unfold st_error, st_warning, st_success, st_write, st_markdown;
  repeat quiet_step.

Lemma read_google_sheet_quiet (id range : string) :
  quiet (read_google_sheet X id range).
Proof.
  unfold read_google_sheet, read_google_sheet_try, get_google_sheets_service.
  quiet_tac.
Qed.

Lemma connect_google_sheet_quiet (url : string) :
  quiet (connect_google_sheet X url).
Proof.
  unfold connect_google_sheet. destruct (truthy url); quiet_tac.
  destruct (negb (truthy a)); quiet_tac.
Qed.

Lemma extraction_loop_quiet (t : string) (total : nat) (entities : list cell) :
  forall idx acc, quiet (extraction_loop X t total idx entities acc).
Proof.
  induction entities as [|c entities IH]; intros idx acc;
    cbn [extraction_loop]; quiet_tac.
  apply IH.
Qed.

Lemma run_data_extraction_quiet (df : dataframe) (column t : string) :
  quiet (run_data_extraction X df column t).
Proof.
  unfold run_data_extraction. quiet_tac. apply extraction_loop_quiet.
Qed.

Lemma sync_sheet_updates (id : string) (records : list extraction) (st : state W) :
  updates (trace (snd (sync_sheet X id records st)))
  = (updates (trace st)
     ++ match build_service X (world st) with
        | (Ret _, _) => [(id, "Sheet1!C1", sheet_rows records)]
        | (Raise _, _) => []
        end)%list.
Proof.
  unfold sync_sheet, update_google_sheet, update_google_sheet_try,
    get_google_sheets_service.
  unfold_py. cbn [logged world trace].
  destruct (build_service X (world st)) as [[[]|e] w]; cbn [snd trace].
  - cbn [world].
    match goal with
    | |- context [values_update ?ext ?a ?b ?c ?d] =>
        destruct (values_update ext a b c d) as [[j|e] w']
    end; cbn [snd trace logged]; rewrite !updates_app; simpl;
      now rewrite ?app_nil_r.
  - cbn [logged trace]. rewrite !updates_app. simpl. now rewrite ?app_nil_r.
Qed.

Lemma show_results_updates (i : inputs) (sid : option string)
    (records : list extraction) (st : state W) :
  updates (trace (snd (show_results X i sid records st))) = updates (trace st)
  \/ exists id,
       sid = Some id /\ data_source i = Google_Sheets
       /\ update_clicked i = true /\ records <> []
       /\ updates (trace (snd (show_results X i sid records st)))
          = (updates (trace st) ++ [(id, "Sheet1!C1", sheet_rows records)])%list.
Proof.
  destruct records as [|r records].
  { left. unfold show_results. now apply quiet_emit. }
  set (recs := r :: records).
  assert (Hq : forall s,
             updates (trace (snd (show_results X i sid recs s)))
             = updates (trace (snd
                 (match data_source i, sid with
                  | Google_Sheets, Some id =>
                      if truthy id && update_clicked i
                      then sync_sheet X id recs else ret tt
                  | _, _ => ret tt
                  end
                    (logged (logged (logged (logged (logged (logged s
                       (UiWrite "Extracted Data"))
                       (UiMarkdown scrollable_style))
                       (UiMarkdown ("<div class=" ++ dquote ++ "scrollable-table"
                                    ++ dquote ++ ">")))
                       (UiTable recs))
                       (UiMarkdown "</div>"))
                       (UiDownload "Download Extracted Data" recs
                          "extracted_data.csv" "text/csv")))))).
  { intros s. reflexivity. }
  rewrite (Hq st). clear Hq.
  match goal with
  | |- context [snd (_ ?s)] => set (st6 := s)
  end.
  assert (Hst6 : updates (trace st6) = updates (trace st)).
  { subst st6. cbn [logged trace]. rewrite !updates_app. simpl.
    now rewrite !app_nil_r. }
  destruct (data_source i) eqn:Hsrc; [left; exact Hst6|].
  destruct sid as [id|]; [|left; exact Hst6].
  destruct (truthy id && update_clicked i) eqn:Hgo; [|left; exact Hst6].
  apply andb_true_iff in Hgo as [_ Hclick].
  rewrite sync_sheet_updates, Hst6.
  destruct (build_service X (world st6)) as [[u|e] w].
  - right. exists id. repeat split; auto. discriminate.
  - left. now rewrite app_nil_r.
Qed.

(** The writes of a run, whatever the two buttons return.  A run of the
    script requests at most one spreadsheet write.  When it requests one,
    both buttons read as pressed, the source is a Google
    Sheet whose URL gave the identifier and the table, the driver returned a
    non-empty list of records, and the write is for that identifier, the
    range ["Sheet1!C1"] and the rows [sheet_rows]: the header
    [Entity, Extracted Data], then one row per record in the order of the
    records.  The sync step requests exactly that write whenever the
    service can be built. *)
Theorem sync_contract (i : inputs) (st : state W) :
  (forall id records s w,
     build_service X (world s) = (Ret tt, w) ->
     updates (trace (snd (sync_sheet X id records s)))
     = (updates (trace s) ++ [(id, "Sheet1!C1", sheet_rows records)])%list)
  /\ (updates (trace (snd (script X i st))) = updates (trace st)
      \/ exists id df records st1 st2 st3,
           run_clicked i = true /\ update_clicked i = true
           /\ data_source i = Google_Sheets
           /\ connect_google_sheet X (google_sheet_url i) st
              = (Ret (Some id, Some df), st1)
           /\ run_data_extraction X df (main_column i) (prompt_template i) st2
              = (Ret records, st3)
           /\ records <> []
           /\ updates (trace (snd (script X i st)))
              = (updates (trace st)
                 ++ [(id, "Sheet1!C1", sheet_rows records)])%list).
Proof.
  split.
  { intros id records s w Hs. rewrite sync_sheet_updates, Hs. reflexivity. }
  set (u := updates (trace (snd (script X i st)))).
  assert (Hu : u = updates (trace (snd (script X i st)))) by reflexivity.
  clearbody u. unfold script in Hu.
  set (load := match data_source i with
               | Upload_CSV =>
                   match uploaded_file i with
                   | Some file =>
                       df <- lift (pd_read_csv X file) ;; ret (None, Some df)
                   | None => ret (None, None)
                   end
               | Google_Sheets => connect_google_sheet X (google_sheet_url i)
               end) in Hu.
  assert (Hload_quiet : quiet load).
  { subst load. destruct (data_source i).
    - destruct (uploaded_file i); quiet_tac.
    - apply connect_google_sheet_quiet. }
  unfold bind at 1 in Hu. specialize (Hload_quiet st).
  destruct (load st) as [[[sid dfo]|e] st1] eqn:Hload; cbn [snd fst] in *;
    [|left; congruence].
  destruct dfo as [df|].
  2: { left. unfold st_warning, emit, logged in Hu. cbn [snd trace] in Hu.
       rewrite updates_app, Hload_quiet in Hu. simpl in Hu.
       now rewrite app_nil_r in Hu. }
  unfold st_write, bind at 1, emit at 1 in Hu.
  unfold bind at 1, lift at 1 in Hu.
  destruct (render_frame X (df_head df)) as [[]|e].
  2: { left. cbn [snd logged trace] in Hu.
       rewrite updates_app, Hload_quiet in Hu. simpl in Hu.
       now rewrite app_nil_r in Hu. }
  unfold bind at 1, emit at 1 in Hu.
  unfold bind at 1, request at 1 in Hu. cbn [logged world trace] in Hu.
  destruct (initialize_agent X (world st1)) as [[[]|e] w].
  2: { left. cbn [snd trace] in Hu. rewrite !updates_app, Hload_quiet in Hu.
       simpl in Hu. now rewrite !app_nil_r in Hu. }
  match type of Hu with
  | context [(if run_clicked i then _ else _) ?s] => set (st2 := s) in Hu
  end.
  assert (Hst2 : updates (trace st2) = updates (trace st)).
  { subst st2. cbn [trace]. rewrite !updates_app, Hload_quiet. simpl.
    now rewrite !app_nil_r. }
  destruct (run_clicked i) eqn:Hrun_clicked; [|left; unfold ret in Hu; cbn [snd] in Hu; congruence].
  unfold bind in Hu.
  assert (Hrun_quiet := run_data_extraction_quiet df (main_column i)
                          (prompt_template i) st2).
  destruct (run_data_extraction X df (main_column i) (prompt_template i) st2)
    as [[records|e] st3] eqn:Hrun; cbn [snd] in *.
  2: { left. congruence. }
  destruct (show_results_updates i sid records st3)
    as [Hshow | [id [-> [Hsrc [Hclick [Hne Hshow]]]]]].
  - left. congruence.
  - right. exists id, df, records, st1, st2, st3.
    subst load. rewrite Hsrc in Hload.
    repeat split; auto. congruence.
Qed.

(** C9, on the runs Streamlit starts.  A run in which at most one of the
    two buttons reads as pressed requests no spreadsheet write.  The press
    of "Update Google Sheet" starts such a run, with "Run Data Extraction"
    read as not pressed: the block of lines 185-266 is skipped and the sync
    step of lines 245-264 is not reached. *)
Theorem confirmation_never_syncs (i : inputs) (st : state W) :
  one_press i = true ->
  updates (trace (snd (script X i st))) = updates (trace st).
Proof.
  intros Hone.
  destruct (proj2 (sync_contract i st))
    as [Hquiet | (id & df & records & st1 & st2 & st3 & Hrun & Hupd & _)];
    [exact Hquiet|].
  unfold one_press in Hone. rewrite Hrun, Hupd in Hone. discriminate Hone.
Qed.

End Contracts.

(** ** Prompt instantiation (C7) *)

Lemma contains_occurs (old s : string) : contains old s = true <-> occurs old s.
Proof.
  induction s as [|c s IH].
  - cbn [contains]. rewrite prefix_iff. split.
    + intros [r Hr]. now exists "", r.
    + intros [[|x pre] [post H]]; [now exists post | discriminate].
  - cbn [contains]. rewrite orb_true_iff, IH. symmetry. apply occurs_cons.
Qed.

(** Prompt instantiation on a string.  For a string entity the prompt is
    [template.replace("{entity}", entity)] and nothing is raised.  A template in which the token does not
    occur is passed through unchanged.  A template in which it occurs has
    its leftmost occurrence replaced by the entity, character for character,
    and the text behind it instantiated in the same way. *)
Theorem prompt_instantiation (template entity : string) :
  replace template "{entity}" (CStr entity)
  = Ret (str_replace template "{entity}" entity)
  /\ (~ occurs "{entity}" template ->
      replace template "{entity}" (CStr entity) = Ret template)
  /\ (forall pre post,
        template = pre ++ "{entity}" ++ post -> ~ occurs "{entity}" pre ->
        replace template "{entity}" (CStr entity)
        = Ret (pre ++ entity ++ str_replace post "{entity}" entity)).
Proof.
  split; [reflexivity|]. split.
  - intros Hno. cbn [replace]. now rewrite str_replace_absent.
  - intros pre post -> Hno. cbn [replace].
    now rewrite str_replace_entity_first.
Qed.

(** ** The script on examples *)

(** The table of the specification: the column [A, B, A] gives two
    records, for [A] and for [B], in that order. *)
Example names_two_records :
  fst (run_data_extraction Demo.X Demo.names "Name" "find {entity}" Demo.st0)
  = Ret [mk_extraction (CStr "A") "about: find A";
         mk_extraction (CStr "B") "Error during extraction"].
Proof. vm_compute. reflexivity. Qed.

(** C1, on a numeric column.  The column [Id] = [1, 2] has two distinct
    values, and in every world the driver raises [TypeError] at the first
    of them: it returns no record, asks the agent nothing and shows only the
    empty progress bar. *)
Theorem numeric_column_aborts_batch
    (W : Type) (X : externals W) (st : state W) :
  List.length (unique [CInt 1; CInt 2]) = 2
  /\ run_data_extraction X Demo.ids "Id" "find {entity}" st
     = (Raise (TypeError "replace() argument 2 must be str, not numpy.int64"),
        logged st UiProgressBar).
Proof. split; vm_compute; reflexivity. Qed.

(** C2, on a column with an absent cell.  The column is [B, nan, C] and the
    agent raises for [B]: the handler shows its message for [B], then the
    absent cell makes the driver raise [TypeError]; no record is returned,
    not even the one of [B], and the agent is never asked about [C]. *)
Theorem failure_then_gap_aborts_batch :
  fst (Demo.agent "find B" 0) = Raise (mk_exn "RuntimeError" "agent stopped")
  /\ run_data_extraction Demo.X Demo.with_gap "Name" "find {entity}" Demo.st0
     = (Raise (TypeError "replace() argument 2 must be str, not float"),
        {| world := 1;
           trace := [UiProgressBar;
                     UiWrite "Running extraction for: B";
                     Called (AgentRun "find B");
                     UiError "Error processing B: agent stopped";
                     UiProgress 1 3] |}).
Proof. split; vm_compute; reflexivity. Qed.

(** C6, as stated, fails: a 200 does not always give a list.  The service
    answers 200 with [null] under ["organic_results"], and [search_web]
    returns that [null]. *)
Lemma search_web_200_not_a_list :
  (exists r w,
     requests_get Demo.X_null_results "https://serpapi.com/search" "python"
       (world Demo.st0) = (Ret r, w)
     /\ status_code r = 200%Z)
  /\ fst (search_web Demo.X_null_results "python" Demo.st0) = Ret JNull
  /\ ~ (exists items,
          fst (search_web Demo.X_null_results "python" Demo.st0)
          = Ret (JArr items)).
Proof.
  split; [|split].
  - do 2 eexists. split; reflexivity.
  - reflexivity.
  - intros [items H]. vm_compute in H. discriminate H.
Qed.

(** C7, on an entity that is not a string.  The template holds no token,
    and still the substitution raises: for the value 7 of a numeric column
    [replace] raises [TypeError], and in every world the driver raises it
    on the column [Id] = [1, 2] instead of passing the template through. *)
Theorem token_less_template_raises
    (W : Type) (X : externals W) (st : state W) :
  contains "{entity}" "Get the email address" = false
  /\ replace "Get the email address" "{entity}" (CInt 7)
     = Raise (TypeError "replace() argument 2 must be str, not numpy.int64")
  /\ run_data_extraction X Demo.ids "Id" "Get the email address" st
     = (Raise (TypeError "replace() argument 2 must be str, not numpy.int64"),
        logged st UiProgressBar).
Proof. repeat split; vm_compute; reflexivity. Qed.

(** ** The contracts on the sample world *)

Lemma query_groq_contract_witness :
  (Demo.create system_prompt "fail" "mixtral-8x7b-32768" 0
   = (Raise (mk_exn "APIConnectionError" "Connection error."), 1)
   /\ fst (query_groq Demo.X "fail" Demo.st0) = Ret "Error")
  /\ (Demo.create system_prompt "hi" "mixtral-8x7b-32768" 0
      = (Ret (mk_completion ["reply to hi"; "second choice"]), 1)
      /\ fst (query_groq Demo.X "hi" Demo.st0) = Ret "reply to hi").
Proof.
  split; (split; [reflexivity|]).
  - rewrite (proj1 (proj2 (query_groq_contract Demo.X "fail" Demo.st0))
               (mk_exn "APIConnectionError" "Connection error.") 1 eq_refl).
    reflexivity.
  - exact (proj2 (proj2 (query_groq_contract Demo.X "hi" Demo.st0))
             "reply to hi" ["second choice"] 1 eq_refl).
Defined.

Lemma search_web_contract_witness :
  fst (search_web Demo.X "down" Demo.st0) = Ret (JArr [])
  /\ fst (search_web Demo.X "quota" Demo.st0) = Ret (JArr [])
  /\ fst (search_web Demo.X "python" Demo.st0)
     = Ret (JArr [JObj [("title", JStr "first hit")]])
  /\ fst (search_web Demo.X_bad_body "python" Demo.st0) = Ret (JArr []).
Proof.
  split; [|split; [|split]].
  - exact (proj1 (proj2 (search_web_contract Demo.X "down" Demo.st0))
             (mk_exn "ConnectionError" "connection refused") 1 eq_refl).
  - refine (proj1 (proj2 (proj2 (search_web_contract Demo.X "quota" Demo.st0)))
              _ 1 eq_refl _).
    discriminate.
  - exact (proj1 (proj2 (proj2 (proj2
             (search_web_contract Demo.X "python" Demo.st0))))
             _ 1 _ eq_refl eq_refl eq_refl).
  - refine (proj2 (proj2 (proj2 (proj2 (proj2
              (search_web_contract Demo.X_bad_body "python" Demo.st0)))))
              _ 1 eq_refl eq_refl _).
    intros fields. discriminate.
Defined.

Lemma sheet_helpers_failure_propagation_witness :
  fst (read_google_sheet Demo.X_no_credentials "SHEETID" "Sheet1" Demo.st0)
  = Ret None
  /\ fst (update_google_sheet Demo.X_no_credentials "SHEETID" "Sheet1!C1"
            [[CStr "Entity"; CStr "Extracted Data"]] Demo.st0)
     = Raise (mk_exn "FileNotFoundError" "credentials.json").
Proof.
  exact (proj1 (proj2 (proj2 (proj2
           (sheet_helpers_failure_propagation Demo.X_no_credentials
              "SHEETID" "Sheet1!C1"
              [[CStr "Entity"; CStr "Extracted Data"]] Demo.st0))))
           (mk_exn "FileNotFoundError" "credentials.json") 0 eq_refl).
Defined.

Lemma spreadsheet_url_parsing_witness :
  List.length (split "/" "https://docs.google.com") < 6
  /\ exists st',
       connect_google_sheet Demo.X "https://docs.google.com" Demo.st0
       = (Ret (None, None), st')
       /\ world st' = world Demo.st0.
Proof.
  assert (H : List.length (split "/" "https://docs.google.com") < 6)
    by (vm_compute; lia).
  split; [exact H|].
  exact (proj1 (proj2 (proj2 (spreadsheet_url_parsing Demo.X)))
           "https://docs.google.com" Demo.st0 H).
Defined.

Lemma prompt_instantiation_witness :
  ~ occurs "{entity}" "Get the email address"
  /\ replace "Get the email address" "{entity}" (CStr "Ada")
     = Ret "Get the email address".
Proof.
  assert (H : ~ occurs "{entity}" "Get the email address").
  { intros Hocc. apply contains_occurs in Hocc. discriminate Hocc. }
  split; [exact H|].
  exact (proj1 (proj2 (prompt_instantiation "Get the email address" "Ada")) H).
Defined.

Lemma confirmation_never_syncs_witness :
  one_press Demo.update_press = true
  /\ updates (trace (snd (script Demo.X Demo.update_press Demo.st0))) = [].
Proof.
  split; [reflexivity|].
  exact (@confirmation_never_syncs nat Demo.X Demo.update_press Demo.st0
           eq_refl).
Defined.

Lemma sync_contract_witness :
  updates (trace (snd (sync_sheet Demo.X "SHEETID"
                         [mk_extraction (CStr "A") "about: find A"] Demo.st0)))
  = [("SHEETID", "Sheet1!C1",
      [[CStr "Entity"; CStr "Extracted Data"];
       [CStr "A"; CStr "about: find A"]])].
Proof.
  exact (proj1 (sync_contract Demo.X
                  (mk_inputs Google_Sheets None "" "Name" "find {entity}"
                     true true) Demo.st0)
           "SHEETID" [mk_extraction (CStr "A") "about: find A"] Demo.st0 0
           eq_refl).
Defined.

Lemma nonstring_entity_aborts_batch_witness :
  exists c st',
    In c [CStr "B"; CMissing; CStr "C"] /\ is_str c = false
    /\ run_data_extraction Demo.X Demo.with_gap "Name" "find {entity}" Demo.st0
       = (Raise (TypeError ("replace() argument 2 must be str, not "
                            ++ type_name c)), st').
Proof.
  refine (proj2 (proj2 (nonstring_entity_aborts_batch Demo.X "find {entity}"))
            Demo.with_gap "Name" [CStr "B"; CMissing; CStr "C"] Demo.st0
            eq_refl _).
  exists CMissing. split; [right; left; reflexivity | reflexivity].
Defined.

(** * More of the script *)

(** ** Projections of a trace *)

Lemma requests_app (a b : list event) :
  requests (a ++ b) = (requests a ++ requests b)%list.
Proof.
  induction a as [|ev a IH]; [reflexivity|].
  destruct ev; simpl; try exact IH. now rewrite IH.
Qed.

Lemma progress_of_app (a b : list event) :
  progress_of (a ++ b) = (progress_of a ++ progress_of b)%list.
Proof.
  induction a as [|ev a IH]; [reflexivity|].
  destruct ev; simpl; try exact IH. now rewrite IH.
Qed.

Ltac trace_simpl :=
  cbn [snd logged world trace];
  rewrite ?requests_app, ?progress_of_app, ?updates_app;
  cbn [requests progress_of updates app];
  rewrite ?app_nil_r.

Section Driver.

Variable W : Type.
Variable X : externals W.

(** What the loop leaves in the trace on string entities: one request to
    the agent per entity, with the instantiated prompt, and one progress
    update per entity, counting up. *)
Lemma extraction_loop_strings_trace (t : string) (total : nat)
    (names : list string) :
  forall idx acc st,
  exists st',
    extraction_loop X t total idx (map CStr names) acc st
    = (Ret (acc ++ fst (agent_batch X t names (world st)))%list, st')
    /\ requests (trace st')
       = (requests (trace st)
          ++ map (fun e => AgentRun (str_replace t "{entity}" e)) names)%list
    /\ progress_of (trace st')
       = (progress_of (trace st)
          ++ map (fun k => (k, total)) (seq (S idx) (List.length names)))%list.
Proof.
  induction names as [|e names IH]; intros idx acc st.
  - exists st. cbn. unfold ret. now rewrite !app_nil_r.
  - cbn [map]. rewrite extraction_loop_string. cbv zeta.
    cbn [agent_batch].
    destruct (agent_run X (str_replace t "{entity}" e) (world st))
      as [[a|ex] w];
      match goal with
      | |- context [extraction_loop X t total (S idx) _ ?acc' ?st1] =>
          destruct (IH (S idx) acc' st1) as [st' [Hrun [Hreq Hprog]]]
      end;
      cbn [logged world trace] in *;
      destruct (agent_batch X t names w) as [records w''];
      exists st'; cbn [fst snd] in *; rewrite Hrun, <- app_assoc;
      (split; [reflexivity|]); rewrite Hreq, Hprog;
      rewrite ?requests_app, ?progress_of_app;
      cbn [requests progress_of app List.length seq map];
      rewrite ?app_nil_r, <- ?app_assoc, Nat.add_1_r; split; reflexivity.
Qed.

Lemma unique_strings (values : list cell) :
  Forall (fun c => is_str c = true) values ->
  map CStr (strings_of (unique values)) = unique values.
Proof.
  intros Hall. apply strings_of_all, Forall_forall. intros c Hc.
  apply (proj1 (unique_In _ _)) in Hc.
  rewrite Forall_forall in Hall. now apply Hall.
Qed.

Lemma run_data_extraction_strings_trace (df : dataframe) (column t : string)
    (values : list cell) (st : state W) :
  getitem df column = Ret values ->
  Forall (fun c => is_str c = true) values ->
  exists st',
    run_data_extraction X df column t st
    = (Ret (fst (agent_batch X t (strings_of (unique values)) (world st))), st')
    /\ requests (trace st')
       = (requests (trace st)
          ++ map (fun e => AgentRun (str_replace t "{entity}" e))
               (strings_of (unique values)))%list
    /\ progress_of (trace st')
       = (progress_of (trace st)
          ++ map (fun k => (k, List.length (unique values)))
               (seq 1 (List.length (unique values))))%list.
Proof.
  intros Hget Hall. assert (Hu := unique_strings Hall).
  unfold run_data_extraction. unfold_py. rewrite Hget.
  destruct (extraction_loop_strings_trace t (List.length (unique values))
              (strings_of (unique values)) 0 [] (logged st UiProgressBar))
    as [st' [Hrun [Hreq Hprog]]].
  rewrite Hu in Hrun. exists st'. split; [exact Hrun|].
  rewrite Hreq, Hprog. trace_simpl.
  rewrite <- (length_map CStr (strings_of (unique values))), Hu.
  split; reflexivity.
Qed.

(** The agent is asked once per distinct value of a column of strings, in
    the order of first occurrence, each time with the template in which the
    token is replaced by the value; the driver itself requests nothing
    else (what the agent's tools request inside [agent.run] is not in the
    trace). *)
Theorem agent_asked_once_per_value (df : dataframe) (column t : string)
    (values : list cell) (st : state W) :
  getitem df column = Ret values ->
  Forall (fun c => is_str c = true) values ->
  requests (trace (snd (run_data_extraction X df column t st)))
  = (requests (trace st)
     ++ map (fun e => AgentRun (str_replace t "{entity}" e))
          (strings_of (unique values)))%list
  /\ map CStr (strings_of (unique values)) = unique values.
Proof.
  intros Hget Hall.
  destruct (@run_data_extraction_strings_trace df column t values st Hget Hall)
    as [st' [Hrun [Hreq _]]].
  rewrite Hrun. split; [exact Hreq | now apply unique_strings].
Qed.

(** On a column of strings with [n] distinct values the progress bar is
    given [1/n], [2/n], ..., [n/n], in this order: it ends full, and it is
    not touched when the column is empty. *)
Theorem progress_counts_up (df : dataframe) (column t : string)
    (values : list cell) (st : state W) :
  getitem df column = Ret values ->
  Forall (fun c => is_str c = true) values ->
  progress_of (trace (snd (run_data_extraction X df column t st)))
  = (progress_of (trace st)
     ++ map (fun k => (k, List.length (unique values)))
          (seq 1 (List.length (unique values))))%list.
Proof.
  intros Hget Hall.
  destruct (@run_data_extraction_strings_trace df column t values st Hget Hall)
    as [st' [Hrun [_ Hprog]]].
  now rewrite Hrun.
Qed.

(** The records of a column of strings name every value of the column, and
    no value twice. *)
Theorem records_cover_column (df : dataframe) (column t : string)
    (values : list cell) (st : state W) :
  getitem df column = Ret values ->
  Forall (fun c => is_str c = true) values ->
  exists records st',
    run_data_extraction X df column t st = (Ret records, st')
    /\ NoDup (map Entity records)
    /\ (forall c, In c values <-> In c (map Entity records)).
Proof.
  intros Hget Hall.
  destruct (@run_data_extraction_strings_trace df column t values st Hget Hall)
    as [st' [Hrun _]].
  eexists _, st'. split; [exact Hrun|].
  rewrite agent_batch_entities, (unique_strings Hall).
  split; [apply unique_NoDup|]. intros c. symmetry. apply unique_In.
Qed.

Lemma extraction_loop_progress (t : string) (total : nat) (entities : list cell) :
  forall idx acc st,
  exists l,
    progress_of (trace (snd (extraction_loop X t total idx entities acc st)))
    = (progress_of (trace st) ++ l)%list
    /\ Forall (fun p => idx < fst p <= idx + List.length entities
                        /\ snd p = total) l.
Proof.
  induction entities as [|c entities IH]; intros idx acc st.
  - exists []. cbn. now rewrite app_nil_r.
  - destruct c as [e| | |].
    + rewrite extraction_loop_string. cbv zeta.
      destruct (agent_run X (str_replace t "{entity}" e) (world st))
        as [[a|ex] w];
        match goal with
        | |- context [extraction_loop X t total (S idx) _ ?acc' ?st1] =>
            destruct (IH (S idx) acc' st1) as [l [Hl Hall]]
        end;
        exists ((idx + 1, total) :: l); rewrite Hl; trace_simpl;
        rewrite <- ?app_assoc; (split; [reflexivity|]);
        (constructor; [cbn; lia|]);
        (eapply Forall_impl; [|exact Hall]); cbn; intros p Hp; lia.
    + rewrite extraction_loop_nonstring by reflexivity.
      exists []. cbn. now rewrite app_nil_r.
    + rewrite extraction_loop_nonstring by reflexivity.
      exists []. cbn. now rewrite app_nil_r.
    + rewrite extraction_loop_nonstring by reflexivity.
      exists []. cbn. now rewrite app_nil_r.
Qed.

(** Whatever the column holds, every value the progress bar is given is a
    quotient [done / total] with [1 <= done <= total]: the division of line
    207 never divides by zero and never exceeds 1. *)
Theorem progress_within_bounds (df : dataframe) (column t : string)
    (st : state W) :
  exists l,
    progress_of (trace (snd (run_data_extraction X df column t st)))
    = (progress_of (trace st) ++ l)%list
    /\ Forall (fun p => 1 <= fst p <= snd p) l.
Proof.
  unfold run_data_extraction. unfold_py.
  destruct (getitem df column) as [values|e].
  - destruct (extraction_loop_progress t (List.length (unique values))
                (unique values) 0 [] (logged st UiProgressBar))
      as [l [Hl Hall]].
    exists l. rewrite Hl. trace_simpl. split; [reflexivity|].
    eapply Forall_impl; [|exact Hall]. cbn. intros p Hp. lia.
  - exists []. trace_simpl. split; [reflexivity | constructor].
Qed.

(** A column without rows: the driver returns no record and asks the agent
    nothing, and the results step shows only its warning. *)
Theorem empty_column_no_data (df : dataframe) (column t : string)
    (i : inputs) (sid : option string) (st : state W) :
  getitem df column = Ret [] ->
  run_data_extraction X df column t st = (Ret [], logged st UiProgressBar)
  /\ (extracted_data <- run_data_extraction X df column t ;;
      show_results X i sid extracted_data) st
     = (Ret tt,
        logged (logged st UiProgressBar)
          (UiWarning "No extracted data to display.")).
Proof.
  intros Hget. unfold run_data_extraction. unfold_py. rewrite Hget.
  split; reflexivity.
Qed.

Lemma unique_from_fixed (seen l : list cell) :
  NoDup l -> (forall c, In c l -> ~ In c seen) -> unique_from seen l = l.
Proof.
  revert seen; induction l as [|x l IH]; intros seen Hnd Hdis; [reflexivity|].
  cbn [unique_from]. inversion Hnd as [|? ? Hx Hnd']; subst.
  assert (Hm : mem x seen = false)
    by (apply mem_false, Hdis; now left).
  rewrite Hm. f_equal. apply IH; [exact Hnd'|].
  intros c Hc [->|Hs]; [contradiction|].
  apply (Hdis c); [now right | exact Hs].
Qed.

Lemma unique_idempotent (l : list cell) : unique (unique l) = unique l.
Proof.
  unfold unique at 1. apply unique_from_fixed; [apply unique_NoDup|].
  intros c _ [].
Qed.

(** Repeated values of the column change nothing: the driver does on a
    column what it does on the column of its distinct values. *)
Theorem duplicates_do_not_matter (df df' : dataframe) (column column' t : string)
    (values : list cell) (st : state W) :
  getitem df column = Ret values ->
  getitem df' column' = Ret (unique values) ->
  run_data_extraction X df' column' t st = run_data_extraction X df column t st.
Proof.
  intros Hget Hget'. unfold run_data_extraction. unfold_py.
  rewrite Hget, Hget', unique_idempotent. reflexivity.
Qed.

Lemma strings_or_first_nonstring (l : list cell) :
  Forall (fun c => is_str c = true) l
  \/ exists pre c post,
       l = (pre ++ c :: post)%list
       /\ Forall (fun x => is_str x = true) pre /\ is_str c = false.
Proof.
  induction l as [|x l IH]; [left; constructor|].
  destruct (is_str x) eqn:Hx.
  - destruct IH as [Hall | [pre [c [post [Hl [Hpre Hc]]]]]].
    + left. now constructor.
    + right. exists (x :: pre), c, post. rewrite Hl. repeat split; auto.
  - right. exists [], x, l. repeat split; auto.
Qed.

(** What leaves the driver: the exception of [df[column]], or the
    [TypeError] of the substitution for a value of the column that is not a
    string.  An exception of the agent never leaves it. *)
Theorem driver_raises_only (df : dataframe) (column t : string)
    (e : exn) (st st' : state W) :
  run_data_extraction X df column t st = (Raise e, st') ->
  getitem df column = Raise e
  \/ exists values c,
       getitem df column = Ret values /\ In c values /\ is_str c = false
       /\ e = TypeError ("replace() argument 2 must be str, not " ++ type_name c).
Proof.
  unfold run_data_extraction. unfold_py.
  destruct (getitem df column) as [values|e0] eqn:Hget.
  2: { intros H. left. congruence. }
  intros Hrun. right. exists values.
  destruct (strings_or_first_nonstring (unique values))
    as [Hall | [pre [c [post [Hl [Hpre Hc]]]]]].
  - exfalso. rewrite <- (strings_of_all Hall) in Hrun.
    destruct (extraction_loop_strings X t (List.length (unique values))
                (strings_of (unique values)) 0 [] (logged st UiProgressBar))
      as [st1 [H1 _]].
    rewrite (strings_of_all Hall) in H1, Hrun. congruence.
  - exists c. split; [reflexivity|]. split; [|split; [exact Hc|]].
    + apply unique_In. rewrite Hl. apply in_or_app. right. now left.
    + rewrite Hl in Hrun at 2. rewrite extraction_loop_app in Hrun.
      rewrite <- (strings_of_all Hpre) in Hrun.
      destruct (extraction_loop_strings X t (List.length (unique values))
                  (strings_of pre) 0 [] (logged st UiProgressBar))
        as [st1 [H1 _]].
      rewrite H1, extraction_loop_nonstring in Hrun by exact Hc.
      congruence.
Qed.

(** ** What a run requests *)

Lemma only_ret {A} (P : call -> bool) (a : A) : only (W := W) P (ret a).
Proof. intros st. exists []. cbn. now rewrite app_nil_r. Qed.

Lemma only_raise {A} (P : call -> bool) (e : exn) :
  only (W := W) P (raise (A := A) e).
Proof. intros st. exists []. cbn. now rewrite app_nil_r. Qed.

Lemma only_lift {A} (P : call -> bool) (o : outcome A) :
  only (W := W) P (lift o).
Proof. intros st. exists []. cbn. now rewrite app_nil_r. Qed.

Lemma only_emit (P : call -> bool) (ev : event) :
  requests [ev] = [] -> only (W := W) P (emit ev).
Proof.
  intros H st. exists []. unfold emit, logged. cbn [snd trace].
  now rewrite requests_app, H.
Qed.

Lemma only_request {A} (P : call -> bool) (c : call) (f : W -> outcome A * W) :
  P c = true -> only P (request c f).
Proof.
  intros H st. exists [c]. unfold request.
  destruct (f (world st)) as [r w]. cbn [snd trace].
  rewrite requests_app. cbn. now rewrite H.
Qed.

Lemma only_bind {A B} (P : call -> bool) (m : M W A) (k : A -> M W B) :
  only P m -> (forall a, only P (k a)) -> only P (bind m k).
Proof.
  intros Hm Hk st. unfold bind. destruct (Hm st) as [l1 [H1 P1]].
  destruct (m st) as [[a|e] st1]; cbn [snd] in *; [|now exists l1].
  destruct (Hk a st1) as [l2 [H2 P2]]. exists (l1 ++ l2)%list.
  rewrite H2, H1, app_assoc, forallb_app, P1, P2. now split.
Qed.

Lemma only_try {A} (P : call -> bool) (m : M W A) (h : exn -> M W A) :
  only P m -> (forall e, only P (h e)) -> only P (try_except m h).
Proof.
  intros Hm Hh st. unfold try_except. destruct (Hm st) as [l1 [H1 P1]].
  destruct (m st) as [[a|e] st1]; cbn [snd] in *; [now exists l1|].
  destruct (Hh e st1) as [l2 [H2 P2]]. exists (l1 ++ l2)%list.
  rewrite H2, H1, app_assoc, forallb_app, P1, P2. now split.
Qed.

Lemma only_weaken {A} (P Q : call -> bool) (m : M W A) :
  (forall c, P c = true -> Q c = true) -> only P m -> only Q m.
Proof.
  intros HPQ Hm st. destruct (Hm st) as [l [Hl HP]]. exists l.
  split; [exact Hl|]. rewrite forallb_forall in *. auto.
Qed.

Ltac only_step :=
  first
    [ apply only_ret | apply only_raise | apply only_lift
    | apply only_emit; reflexivity
    | apply only_request; reflexivity
    | apply only_bind; [|intro]
    | apply only_try; [|intro] ].

Ltac only_tac :=
  unfold st_error, st_warning, st_success, st_write, st_markdown;
  repeat only_step.

Lemma extraction_loop_only (t : string) (total : nat) (entities : list cell) :
  forall idx acc, only is_agent_run (extraction_loop X t total idx entities acc).
Proof.
  induction entities as [|c entities IH]; intros idx acc;
    cbn [extraction_loop]; only_tac.
  apply IH.
Qed.

Lemma read_google_sheet_only (P : call -> bool) (id range : string) :
  P SheetsService = true -> P (SheetsGet id range) = true ->
  only P (read_google_sheet X id range).
Proof.
  intros Hs Hg.
  unfold read_google_sheet, read_google_sheet_try, get_google_sheets_service.
  unfold st_error.
  apply only_try; [|intro; only_tac].
  apply only_bind; [now apply only_request | intro].
  apply only_bind; [now apply only_request | intro].
  only_tac.
Qed.

Lemma sync_sheet_only (id : string) (records : list extraction) :
  only is_sheets_call (sync_sheet X id records).
Proof.
  unfold sync_sheet, update_google_sheet, update_google_sheet_try,
    get_google_sheets_service.
  only_tac.
Qed.

Lemma show_results_only (P : call -> bool) (i : inputs) (sid : option string)
    (records : list extraction) :
  (data_source i = Google_Sheets -> update_clicked i = true ->
   forall c, is_sheets_call c = true -> P c = true) ->
  only P (show_results X i sid records).
Proof.
  intros HP. unfold show_results. destruct records as [|r records]; only_tac.
  destruct (data_source i); [only_tac|].
  destruct sid as [id|]; [|only_tac].
  destruct (truthy id && update_clicked i) eqn:Hgo; [|only_tac].
  apply andb_true_iff in Hgo as [_ Hclick].
  apply only_weaken with (P := is_sheets_call); [now apply HP|].
  apply sync_sheet_only.
Qed.

(** A run on an uploaded CSV file never calls the Google Sheets service:
    nothing is read from a sheet and nothing is written to one, whatever
    the buttons and the URL field hold. *)
Theorem upload_never_touches_sheets (i : inputs) :
  data_source i = Upload_CSV ->
  only (fun c => negb (is_sheets_call c)) (script X i).
Proof.
  intros Hsrc. unfold script. rewrite Hsrc.
  apply only_bind.
  { destruct (uploaded_file i); only_tac. }
  intros loaded. destruct (snd loaded) as [df|]; [|only_tac].
  unfold st_write.
  apply only_bind; [apply only_emit; reflexivity | intro].
  apply only_bind; [apply only_lift | intro].
  apply only_bind; [apply only_emit; reflexivity | intro].
  apply only_bind; [apply only_request; reflexivity | intro].
  destruct (run_clicked i); [|apply only_ret].
  apply only_bind.
  - apply only_weaken with (P := is_agent_run); [now intros []|].
    unfold run_data_extraction. only_tac. apply extraction_loop_only.
  - intro. apply show_results_only. congruence.
Qed.

Lemma only_bind_lift {A B} (P : call -> bool) (o : outcome A) (k : A -> M W B) :
  (forall a, o = Ret a -> only P (k a)) -> only P (bind (lift o) k).
Proof.
  intros H st. unfold bind, lift. destruct o as [a|e].
  - now apply H.
  - exists []. cbn. now rewrite app_nil_r.
Qed.

Lemma connect_google_sheet_only (P : call -> bool) (url : string) :
  P SheetsService = true ->
  (forall id range, P (SheetsGet id range) = true) ->
  only P (connect_google_sheet X url).
Proof.
  intros Hs Hg. unfold connect_google_sheet.
  destruct (truthy url); [|apply only_ret].
  apply only_try; [|intro; only_tac].
  apply only_bind; [apply only_lift | intro id].
  destruct (negb (truthy id)); [only_tac|].
  apply only_bind; [now apply read_google_sheet_only | intro; apply only_ret].
Qed.

(** Without the button "Run Data Extraction" pressed, a run asks the agent
    nothing and writes nothing to a sheet. *)
Theorem no_run_no_extraction (i : inputs) :
  run_clicked i = false ->
  only (fun c => match c with
                 | AgentRun _ | SheetsUpdate _ _ _ => false
                 | _ => true
                 end) (script X i).
Proof.
  intros Hrun. unfold script. rewrite Hrun.
  apply only_bind.
  { destruct (data_source i).
    - destruct (uploaded_file i); only_tac.
    - now apply connect_google_sheet_only. }
  intros loaded. destruct (snd loaded) as [df|]; only_tac.
Qed.

Lemma split_pieces_no_sep (sep : ascii) (s : string) :
  Forall (fun piece => contains (String sep EmptyString) piece = false)
    (split sep s).
Proof.
  induction s as [|c s IH]; cbn [split].
  - constructor; [|constructor]. reflexivity.
  - destruct (Ascii.eqb_spec c sep) as [->|Hc].
    + constructor; [reflexivity | exact IH].
    + destruct (split sep s) as [|piece pieces].
      * constructor; [|constructor]. cbn.
        destruct (ascii_dec sep c); [congruence | reflexivity].
      * inversion IH as [|? ? Hpiece Hpieces]; subst.
        constructor; [|exact Hpieces]. cbn [contains].
        rewrite Hpiece, orb_false_r. cbn.
        destruct (ascii_dec sep c); [congruence | reflexivity].
Qed.

Lemma connect_google_sheet_returns (url : string) (st : state W) :
  exists r st', connect_google_sheet X url st = (Ret r, st').
Proof.
  unfold connect_google_sheet.
  destruct (truthy url); [|unfold ret; eauto].
  unfold try_except, bind at 1, lift at 1.
  destruct (index (split "/" url) 5) as [id|e].
  - destruct (negb (truthy id)); [unfold_py; eauto|].
    destruct (read_google_sheet_returns X id "Sheet1" st) as [r [st' Hr]].
    unfold bind, ret. rewrite Hr. eauto.
  - unfold_py. eauto.
Qed.

(** Whatever the URL, the Google Sheets branch never raises, and the only
    table it asks for is the range ["Sheet1"] of an identifier that is not
    empty and holds no ["/"]. *)
Theorem connect_google_sheet_requests (url : string) :
  (forall st, exists r st', connect_google_sheet X url st = (Ret r, st'))
  /\ only is_sheet1_read (connect_google_sheet X url).
Proof.
  split; [apply connect_google_sheet_returns|].
  - unfold connect_google_sheet.
    destruct (truthy url); [|apply only_ret].
    apply only_try; [|intro; only_tac].
    apply only_bind_lift. intros id Hid.
    destruct (truthy id) eqn:Hid_truthy; cbn [negb]; [|only_tac].
    apply only_bind; [|intro; apply only_ret].
    apply read_google_sheet_only; [reflexivity|].
    cbn [is_sheet1_read]. rewrite Hid_truthy, String.eqb_refl.
    assert (Hno : contains "/" id = false).
    { unfold index in Hid.
      destruct (nth_error (split "/" url) 5) as [x|] eqn:Hn; [|discriminate].
      inversion Hid; subst x. apply nth_error_In in Hn.
      pose proof (split_pieces_no_sep "/" url) as Hall.
      rewrite Forall_forall in Hall. now apply Hall. }
    now rewrite Hno.
Qed.

(** A URL whose piece of index 5 is empty, such as
    ["https://docs.google.com/spreadsheets/d//edit"], is reported as
    invalid: nothing is requested and no table is loaded. *)
Theorem connect_google_sheet_empty_id (url : string) (st : state W) :
  index (split "/" url) 5 = Ret "" ->
  connect_google_sheet X url st
  = (Ret (Some "", None), logged st (UiError "Invalid Google Sheets URL")).
Proof.
  intros Hid. unfold connect_google_sheet.
  destruct url as [|c url]; [discriminate|]. cbn [truthy].
  unfold_py. rewrite Hid. reflexivity.
Qed.

(** ** The sheet helpers, step by step *)

(** A sheet without a cell (no ["values"] in the answer, or an empty list)
    has no header row: the read shows
    ["Error reading Google Sheet: list index out of range"] and returns
    [None]. *)
Theorem read_google_sheet_empty_sheet (id range : string) (st : state W)
    (w w' : W) (sheet : sheet_data) :
  build_service X (world st) = (Ret tt, w) ->
  values_get X id range w = (Ret sheet, w') ->
  values sheet = None \/ values sheet = Some [] ->
  read_google_sheet X id range st
  = (Ret None,
     {| world := w';
        trace := trace st
                 ++ [Called SheetsService; Called (SheetsGet id range);
                     UiError "Error reading Google Sheet: list index out of range"]
     |}).
Proof.
  intros Hs Hg Hv.
  unfold read_google_sheet, read_google_sheet_try, get_google_sheets_service.
  unfold_py. rewrite Hs. cbn [world]. rewrite Hg.
  destruct Hv as [-> | ->]; cbn; unfold logged; cbn [world trace];
    now rewrite <- !app_assoc.
Qed.

(** The first row of the sheet gives the labels and the rows after it the
    data: with a header row the read returns the frame pandas builds from
    them and shows nothing; when pandas refuses them it shows the message
    and returns [None]. *)
Theorem read_google_sheet_header_row (id range : string) (st : state W)
    (w w' : W) (sheet : sheet_data) (header : list string)
    (rows : list (list string)) :
  build_service X (world st) = (Ret tt, w) ->
  values_get X id range w = (Ret sheet, w') ->
  values sheet = Some (header :: rows) ->
  read_google_sheet X id range st
  = match pd_DataFrame X rows header with
    | Ret df =>
        (Ret (Some df),
         {| world := w';
            trace := trace st
                     ++ [Called SheetsService; Called (SheetsGet id range)] |})
    | Raise e =>
        (Ret None,
         {| world := w';
            trace := trace st
                     ++ [Called SheetsService; Called (SheetsGet id range);
                         UiError ("Error reading Google Sheet: " ++ exn_msg e)] |})
    end.
Proof.
  intros Hs Hg Hv.
  unfold read_google_sheet, read_google_sheet_try, get_google_sheets_service.
  unfold_py. rewrite Hs. cbn [world]. rewrite Hg, Hv. cbn.
  destruct (pd_DataFrame X rows header); cbn; unfold logged;
    cbn [world trace]; now rewrite <- !app_assoc.
Qed.

Lemma sync_sheet_run (id : string) (records : list extraction) (st : state W) :
  sync_sheet X id records st
  = match update_google_sheet_try X id "Sheet1!C1"
            (sheet_rows records) (before_update st records) with
    | (Ret _, st1) =>
        (Ret tt, logged st1 (UiSuccess "Google Sheet updated successfully!"))
    | (Raise e, st1) =>
        (Ret tt,
         logged (logged st1
                   (UiError ("Error updating Google Sheet: " ++ exn_msg e)))
           (UiError ("Failed to update Google Sheet: " ++ exn_msg e)))
    end.
Proof.
  unfold sync_sheet, update_google_sheet, before_update.
  unfold st_write, st_success, st_error.
  unfold try_except, bind, emit, raise.
  change (([[CStr "Entity"; CStr "Extracted Data"]]
           ++ values_tolist records)%list) with (sheet_rows records).
  destruct (update_google_sheet_try X id "Sheet1!C1" (sheet_rows records)
              (logged (logged (logged st (UiSpinner "Updating Google Sheet..."))
                         (UiWrite "Preview of data to be updated:"))
                 (UiDataframe records))) as [[j|e] st1]; reflexivity.
Qed.

(** The sync step never raises.  When the update helper returns, it shows
    the success message; when the helper raises, the failure has been shown
    by the helper and is shown once more by the step, and no success is
    shown. *)
Theorem sync_sheet_outcomes (id : string) (records : list extraction)
    (st : state W) :
  (exists st', sync_sheet X id records st = (Ret tt, st'))
  /\ (forall result st1,
        update_google_sheet_try X id "Sheet1!C1" (sheet_rows records)
          (before_update st records) = (Ret result, st1) ->
        sync_sheet X id records st
        = (Ret tt, logged st1 (UiSuccess "Google Sheet updated successfully!")))
  /\ (forall e st1,
        update_google_sheet_try X id "Sheet1!C1" (sheet_rows records)
          (before_update st records) = (Raise e, st1) ->
        sync_sheet X id records st
        = (Ret tt,
           logged (logged st1
                     (UiError ("Error updating Google Sheet: " ++ exn_msg e)))
             (UiError ("Failed to update Google Sheet: " ++ exn_msg e)))).
Proof.
  rewrite sync_sheet_run. split; [|split].
  - destruct (update_google_sheet_try X id "Sheet1!C1" (sheet_rows records)
                (before_update st records)) as [[j|e] st1]; eauto.
  - intros result st1 H. now rewrite H.
  - intros e st1 H. now rewrite H.
Qed.

(** ** The search and the model query, at the edges *)

(** One call of [search_web] makes one HTTP request, to the fixed address
    and with the query it was given: there is no second attempt, whatever
    the answer. *)
Theorem search_web_one_request (query : string) (st : state W) :
  requests (trace (snd (search_web X query st)))
  = (requests (trace st) ++ [RequestsGet "https://serpapi.com/search" query])%list
  /\ world (snd (search_web X query st))
     = snd (requests_get X "https://serpapi.com/search" query (world st)).
Proof.
  unfold search_web. unfold_py.
  destruct (requests_get X "https://serpapi.com/search" query (world st))
    as [[r|e] w]; cbn [snd].
  2: { trace_simpl. now split. }
  destruct (status_code r =? 200)%Z.
  2: { trace_simpl. now split. }
  destruct (json_body r) as [body|e]; cbn [snd].
  2: { trace_simpl. now split. }
  destruct (json_get body "organic_results" (JArr [])); trace_simpl; now split.
Qed.

(** A 200 whose body is not JSON, or is JSON but not an object, is answered
    with the empty list, and the exception is shown. *)
Theorem search_web_bad_body (query : string) (st : state W)
    (r : response) (w : W) :
  requests_get X "https://serpapi.com/search" query (world st) = (Ret r, w) ->
  status_code r = 200%Z ->
  (forall fields, json_body r <> Ret (JObj fields)) ->
  exists e,
    search_web X query st
    = (Ret (JArr []),
       {| world := w;
          trace := trace st
                   ++ [Called (RequestsGet "https://serpapi.com/search" query);
                       UiError ("An exception occurred while querying SerpAPI: "
                                ++ exn_msg e)] |}).
Proof.
  intros Hget H200 Hbody. unfold search_web. unfold_py.
  rewrite Hget, H200. cbn.
  destruct (json_body r) as [body|e] eqn:Hb; cbn.
  - destruct body as [| | | | |fields];
      try (exists (AttributeError "object has no attribute 'get'");
           cbn; unfold logged; cbn [world trace];
           rewrite <- app_assoc; reflexivity).
    exfalso. now apply (Hbody fields).
  - exists e. unfold logged. cbn [world trace]. now rewrite <- app_assoc.
Qed.

(** An answer of the model without a choice is a failure like any other:
    the index error is shown and the value is ["Error"]. *)
Theorem query_groq_no_choices (prompt : string) (st : state W) (w : W) :
  chat_completions_create X system_prompt prompt "mixtral-8x7b-32768" (world st)
  = (Ret (mk_completion []), w) ->
  query_groq X prompt st
  = (Ret "Error",
     {| world := w;
        trace := trace st
                 ++ [Called (GroqCreate system_prompt prompt "mixtral-8x7b-32768");
                     UiError "Groq API error: list index out of range"] |}).
Proof.
  intros H. unfold query_groq. unfold_py. rewrite H. cbn.
  unfold logged. cbn [world trace]. now rewrite <- app_assoc.
Qed.

End Driver.

(** ** Strings *)

(** Every occurrence of the token is replaced: a template made of pieces
    without the token, joined by the token, becomes the same pieces joined
    by the entity. *)
Theorem replace_all_occurrences (pieces : list string) (entity : string) :
  Forall (fun piece => ~ occurs "{entity}" piece) pieces ->
  replace (join "{entity}" pieces) "{entity}" (CStr entity)
  = Ret (join entity pieces).
Proof.
  intros Hall. cbn [replace]. f_equal.
  induction Hall as [|p rest Hp Hrest IH]; [reflexivity|].
  destruct rest as [|q rest].
  - cbn [join]. now apply str_replace_absent.
  - change (join "{entity}" (p :: q :: rest))
      with (p ++ "{entity}" ++ join "{entity}" (q :: rest)).
    rewrite str_replace_entity_first by exact Hp. rewrite IH. reflexivity.
Qed.

(** Splitting a URL at ["/"] loses nothing: the pieces hold no ["/"], and
    joined by ["/"] they give the URL back. *)
Theorem url_split_join (url : string) :
  join "/" (split "/" url) = url
  /\ Forall (fun piece => contains "/" piece = false) (split "/" url).
Proof.
  split; [|apply split_pieces_no_sep].
  induction url as [|c url IH]; [reflexivity|].
  cbn [split]. destruct (Ascii.eqb_spec c "/") as [->|Hc].
  - destruct (split "/" url) as [|piece pieces] eqn:Hs.
    + now apply split_nonempty in Hs.
    + change (join "/" ("" :: piece :: pieces))
        with ("/" ++ join "/" (piece :: pieces)).
      now rewrite IH.
  - destruct (split "/" url) as [|piece pieces] eqn:Hs.
    + now apply split_nonempty in Hs.
    + destruct pieces as [|piece' pieces].
      * cbn [join] in *. now rewrite IH.
      * change (join "/" (String c piece :: piece' :: pieces))
          with (String c (join "/" (piece :: piece' :: pieces))).
        now rewrite IH.
Qed.

(** ** More of the script on the sample world *)

Lemma names_are_strings :
  Forall (fun c => is_str c = true) [CStr "A"; CStr "B"; CStr "A"].
Proof. repeat constructor. Defined.

Lemma run_data_extraction_strings_witness :
  exists records st',
    run_data_extraction Demo.X Demo.names "Name" "find {entity}" Demo.st0
    = (Ret records, st')
    /\ records
       = fst (agent_batch Demo.X "find {entity}"
                (strings_of (unique [CStr "A"; CStr "B"; CStr "A"]))
                (world Demo.st0))
    /\ map Entity records = unique [CStr "A"; CStr "B"; CStr "A"]
    /\ List.length records = List.length (unique [CStr "A"; CStr "B"; CStr "A"]).
Proof.
  exact (@run_data_extraction_strings nat Demo.X Demo.names "Name"
           "find {entity}" [CStr "A"; CStr "B"; CStr "A"] Demo.st0
           eq_refl names_are_strings).
Defined.

Lemma records_cover_column_witness :
  exists records st',
    run_data_extraction Demo.X Demo.names "Name" "find {entity}" Demo.st0
    = (Ret records, st')
    /\ NoDup (map Entity records)
    /\ (forall c, In c [CStr "A"; CStr "B"; CStr "A"]
                  <-> In c (map Entity records)).
Proof.
  exact (@records_cover_column nat Demo.X Demo.names "Name" "find {entity}"
           [CStr "A"; CStr "B"; CStr "A"] Demo.st0 eq_refl names_are_strings).
Defined.

Lemma agent_asked_once_per_value_witness :
  requests (trace (snd (run_data_extraction Demo.X Demo.names "Name"
                          "find {entity}" Demo.st0)))
  = [AgentRun "find A"; AgentRun "find B"].
Proof.
  exact (proj1 (@agent_asked_once_per_value nat Demo.X Demo.names "Name"
                  "find {entity}" [CStr "A"; CStr "B"; CStr "A"] Demo.st0
                  eq_refl names_are_strings)).
Defined.

Lemma progress_counts_up_witness :
  progress_of (trace (snd (run_data_extraction Demo.X Demo.names "Name"
                             "find {entity}" Demo.st0)))
  = [(1, 2); (2, 2)].
Proof.
  exact (@progress_counts_up nat Demo.X Demo.names "Name" "find {entity}"
           [CStr "A"; CStr "B"; CStr "A"] Demo.st0 eq_refl names_are_strings).
Defined.

Lemma empty_column_no_data_witness :
  getitem Demo.no_rows "Name" = Ret []
  /\ run_data_extraction Demo.X Demo.no_rows "Name" "find {entity}" Demo.st0
     = (Ret [], logged Demo.st0 UiProgressBar).
Proof.
  split; [reflexivity|].
  exact (proj1 (@empty_column_no_data nat Demo.X Demo.no_rows "Name"
                  "find {entity}" (Demo.upload true) None Demo.st0 eq_refl)).
Defined.

Lemma duplicates_do_not_matter_witness :
  run_data_extraction Demo.X [("Name", [CStr "A"; CStr "B"])] "Name"
    "find {entity}" Demo.st0
  = run_data_extraction Demo.X Demo.names "Name" "find {entity}" Demo.st0.
Proof.
  exact (@duplicates_do_not_matter nat Demo.X Demo.names
           [("Name", [CStr "A"; CStr "B"])] "Name" "Name" "find {entity}"
           [CStr "A"; CStr "B"; CStr "A"] Demo.st0 eq_refl eq_refl).
Defined.

Lemma driver_raises_only_witness :
  getitem Demo.ids "Id" = Raise (TypeError "replace() argument 2 must be str, not numpy.int64")
  \/ exists values c,
       getitem Demo.ids "Id" = Ret values /\ In c values /\ is_str c = false
       /\ TypeError "replace() argument 2 must be str, not numpy.int64"
          = TypeError ("replace() argument 2 must be str, not " ++ type_name c).
Proof.
  exact (@driver_raises_only nat Demo.X Demo.ids "Id" "find {entity}"
           (TypeError "replace() argument 2 must be str, not numpy.int64")
           Demo.st0 (logged Demo.st0 UiProgressBar) eq_refl).
Defined.

Lemma upload_never_touches_sheets_witness :
  data_source (Demo.upload true) = Upload_CSV
  /\ only (fun c => negb (is_sheets_call c)) (script Demo.X (Demo.upload true)).
Proof.
  split; [reflexivity|].
  exact (@upload_never_touches_sheets nat Demo.X (Demo.upload true) eq_refl).
Defined.

Lemma no_run_no_extraction_witness :
  run_clicked (Demo.upload false) = false
  /\ only (fun c => match c with
                    | AgentRun _ | SheetsUpdate _ _ _ => false
                    | _ => true
                    end) (script Demo.X (Demo.upload false)).
Proof.
  split; [reflexivity|].
  exact (@no_run_no_extraction nat Demo.X (Demo.upload false) eq_refl).
Defined.

Lemma connect_google_sheet_empty_id_witness :
  index (split "/" "https://docs.google.com/spreadsheets/d//edit") 5 = Ret ""
  /\ connect_google_sheet Demo.X "https://docs.google.com/spreadsheets/d//edit"
       Demo.st0
     = (Ret (Some "", None),
        logged Demo.st0 (UiError "Invalid Google Sheets URL")).
Proof.
  split; [reflexivity|].
  exact (@connect_google_sheet_empty_id nat Demo.X
           "https://docs.google.com/spreadsheets/d//edit" Demo.st0 eq_refl).
Defined.

Lemma read_google_sheet_empty_sheet_witness :
  read_google_sheet Demo.X_empty_sheet "SHEETID" "Sheet1" Demo.st0
  = (Ret None,
     {| world := 1;
        trace := [Called SheetsService; Called (SheetsGet "SHEETID" "Sheet1");
                  UiError "Error reading Google Sheet: list index out of range"]
     |}).
Proof.
  exact (@read_google_sheet_empty_sheet nat Demo.X_empty_sheet "SHEETID"
           "Sheet1" Demo.st0 0 1 (mk_sheet_data None) eq_refl eq_refl
           (or_introl eq_refl)).
Defined.

Lemma read_google_sheet_header_row_witness :
  read_google_sheet Demo.X "SHEETID" "Sheet1" Demo.st0
  = (Ret (Some [("Name", [CStr "A"; CStr "B"; CStr "A"])]),
     {| world := 1;
        trace := [Called SheetsService; Called (SheetsGet "SHEETID" "Sheet1")]
     |}).
Proof.
  exact (@read_google_sheet_header_row nat Demo.X "SHEETID" "Sheet1" Demo.st0
           0 1 (mk_sheet_data (Some [["Name"]; ["A"]; ["B"]; ["A"]]))
           ["Name"] [["A"]; ["B"]; ["A"]] eq_refl eq_refl eq_refl).
Defined.

Lemma sync_sheet_outcomes_witness :
  sync_sheet Demo.X_read_only "SHEETID"
    [mk_extraction (CStr "A") "about: find A"] Demo.st0
  = (Ret tt,
     {| world := 1;
        trace := [UiSpinner "Updating Google Sheet...";
                  UiWrite "Preview of data to be updated:";
                  UiDataframe [mk_extraction (CStr "A") "about: find A"];
                  Called SheetsService;
                  Called (SheetsUpdate "SHEETID" "Sheet1!C1"
                            [[CStr "Entity"; CStr "Extracted Data"];
                             [CStr "A"; CStr "about: find A"]]);
                  UiError "Error updating Google Sheet: The caller does not have permission";
                  UiError "Failed to update Google Sheet: The caller does not have permission"]
     |}).
Proof.
  exact (proj2 (proj2 (@sync_sheet_outcomes nat Demo.X_read_only "SHEETID"
                         [mk_extraction (CStr "A") "about: find A"] Demo.st0))
           (mk_exn "HttpError" "The caller does not have permission")
           _ eq_refl).
Defined.

Lemma search_web_bad_body_witness :
  exists e,
    search_web Demo.X_bad_body "python" Demo.st0
    = (Ret (JArr []),
       {| world := 1;
          trace := [Called (RequestsGet "https://serpapi.com/search" "python");
                    UiError ("An exception occurred while querying SerpAPI: "
                             ++ exn_msg e)] |}).
Proof.
  refine (@search_web_bad_body nat Demo.X_bad_body "python" Demo.st0
            (mk_response 200 "OK" "<html>"
               (Raise (mk_exn "JSONDecodeError" "Expecting value")))
            1 eq_refl eq_refl _).
  intros fields. discriminate.
Defined.

Lemma query_groq_no_choices_witness :
  query_groq Demo.X_no_choice "hi" Demo.st0
  = (Ret "Error",
     {| world := 1;
        trace := [Called (GroqCreate system_prompt "hi" "mixtral-8x7b-32768");
                  UiError "Groq API error: list index out of range"] |}).
Proof.
  exact (@query_groq_no_choices nat Demo.X_no_choice "hi" Demo.st0 1 eq_refl).
Defined.

Lemma replace_all_occurrences_witness :
  replace "Find {entity} and the address of {entity}" "{entity}" (CStr "Ada")
  = Ret "Find Ada and the address of Ada".
Proof.
  refine (@replace_all_occurrences ["Find "; " and the address of "; ""] "Ada" _).
  repeat constructor; intros Hocc; apply contains_occurs in Hocc;
    discriminate Hocc.
Defined.
